(** * torch/_inductor/cxx_builder/cxx_builder.py

    A shallow embedding of the C++/CUDA build-option composer and of the
    command runner of [cxx_builder.py], with the properties of its
    specification stated over the embedding.

    Conventions.
    - A Python [str] is a Rocq [string]; text is held as its UTF-8 bytes.
    - The seven option lists are class attributes of [BuildOptionsBase]; they
      are one object shared by every instance of every option class.  They are
      modelled as one [Store] threaded through the constructors.
    - Everything the module reads from its surroundings (platform, global
      configuration, environment variables, helpers of other modules, the
      file system at composition time) is a field of [Env].
    - Code that can raise runs in the monad [M], which keeps the state that
      was reached when the exception left the function. *)

From Stdlib Require Import String Ascii List Bool ZArith Lia.
Import ListNotations.
Open Scope list_scope.
Open Scope string_scope.

(* ===================================================================== *)
(** ** Python string operations used by the module *)
(* ===================================================================== *)

Module Py.

(** [s.startswith(p)] *)
Fixpoint startswith (p s : string) : bool :=
  match p, s with
  | EmptyString, _ => true
  | String a p', String b s' => Ascii.eqb a b && startswith p' s'
  | String _ _, EmptyString => false
  end.

(** [needle in hay] on strings *)
Fixpoint str_in (needle hay : string) : bool :=
  startswith needle hay ||
  match hay with
  | EmptyString => false
  | String _ hay' => str_in needle hay'
  end.

(** [s.endswith(p)] *)
Fixpoint endswith (p s : string) : bool :=
  String.eqb p s ||
  match s with
  | EmptyString => false
  | String _ s' => endswith p s'
  end.

(** [sep.join(l)] *)
Fixpoint join (sep : string) (l : list string) : string :=
  match l with
  | [] => ""
  | [x] => x
  | x :: xs => x ++ sep ++ join sep xs
  end.

(** [item in l] on a list of strings *)
Definition mem (x : string) (l : list string) : bool :=
  existsb (String.eqb x) l.

(** [s.upper()], on the ASCII letters *)
Definition upper_ascii (c : ascii) : ascii :=
  let n := nat_of_ascii c in
  if (97 <=? n)%nat && (n <=? 122)%nat then ascii_of_nat (n - 32) else c.

Fixpoint upper (s : string) : string :=
  match s with
  | EmptyString => EmptyString
  | String c s' => String (upper_ascii c) (upper s')
  end.

(** [s.replace(a, b)] for one-character [a] and [b] *)
Fixpoint replace_char (a b : ascii) (s : string) : string :=
  match s with
  | EmptyString => EmptyString
  | String c s' => String (if Ascii.eqb c a then b else c) (replace_char a b s')
  end.

(** [str(x)] of an optional string: [None] prints as its name *)
Definition str_of_optional (o : option string) : string :=
  match o with
  | None => "None"
  | Some s => s
  end.

(** [posixpath.join(a, *ps)] *)
Definition posix_join2 (path b : string) : string :=
  if startswith "/" b then b
  else if String.eqb path "" || endswith "/" path then path ++ b
  else path ++ "/" ++ b.

Definition posixpath_join (a : string) (ps : list string) : string :=
  fold_left posix_join2 ps a.

End Py.

(* ===================================================================== *)
(** ** Exceptions and the state-and-exception monad *)
(* ===================================================================== *)

Inductive exn : Type :=
| NotImplementedError (msg : string)
| RuntimeError (msg : string)
| OSError (msg : string)
| ValueError (msg : string)
| UnicodeDecodeError
| CppCompileError (cmd : list string) (output : string).

Inductive result (A : Type) : Type :=
| Ok (a : A)
| Raise (e : exn).

Arguments Ok {A} a.
Arguments Raise {A} e.

(** A computation over a mutable state [S].  The state is returned in both
    outcomes: what was mutated before an exception stays mutated. *)
Definition M (S A : Type) : Type := S -> result A * S.

Definition ret {S A} (a : A) : M S A := fun s => (Ok a, s).

Definition raise {S A} (e : exn) : M S A := fun s => (Raise e, s).

Definition bind {S A B} (m : M S A) (k : A -> M S B) : M S B :=
  fun s =>
    match m s with
    | (Ok a, s') => k a s'
    | (Raise e, s') => (Raise e, s')
    end.

Definition lift {S A} (r : result A) : M S A := fun s => (r, s).

Definition modify {S} (f : S -> S) : M S unit := fun s => (Ok tt, f s).

Definition gets {S A} (f : S -> A) : M S A := fun s => (Ok (f s), s).

Declare Scope m_scope.
Delimit Scope m_scope with M.
Notation "x <- m ;; k" := (bind m (fun x => k))
  (at level 61, m at next level, right associativity) : m_scope.
Notation "' p <- m ;; k" := (bind m (fun x => let 'p := x in k))
  (at level 61, p pattern, m at next level, right associativity) : m_scope.
Notation "m ;;; k" := (bind m (fun _ => k))
  (at level 61, right associativity) : m_scope.

(* ===================================================================== *)
(** ** [_nonduplicate_append] *)
(* ===================================================================== *)

(** One iteration of the loop: [if item not in dest_list: dest_list.append(item)] *)
Definition append_if_absent (dest_list : list string) (item : string) : list string :=
  if Py.mem item dest_list then dest_list else (dest_list ++ [item])%list.

(** [_nonduplicate_append(dest_list, src_list)]: the value of [dest_list] after
    the loop. *)
Definition _nonduplicate_append (dest_list src_list : list string) : list string :=
  fold_left append_if_absent src_list dest_list.

(** The list [l] with every repetition after the first occurrence removed. *)
Fixpoint first_occurrences (l : list string) : list string :=
  match l with
  | [] => []
  | x :: xs => x :: filter (fun y => negb (String.eqb y x)) (first_occurrences xs)
  end.

(* ===================================================================== *)
(** ** The surroundings of the module *)
(* ===================================================================== *)

(** What the module reads and cannot change while options are composed.
    Helpers that live in other modules ([codecache], [cuda_env],
    [cpp_extension], [sysconfig], [ntpath]) are fields, named after the
    expression of the source they stand for. *)
Record Env : Type := {
  (** [sys.platform], [platform.machine()], [os.uname().machine] *)
  sys_platform : string;
  platform_machine : string;
  os_uname_machine : string;
  (** [os.path.dirname(os.path.abspath(__file__))], [os.path.dirname(sys.executable)] *)
  module_dir : string;
  python_exe_dir : string;
  (** [os.environ.get("CXX")], [codecache.cpp_compiler()] *)
  environ_CXX : option string;
  codecache_cpp_compiler : string;
  (** [config.aot_inductor.debug_compile], [config.cpp.enable_unsafe_math_opt_flag],
      [config.is_fbcode()] *)
  config_debug_compile : bool;
  config_enable_unsafe_math_opt_flag : bool;
  config_is_fbcode : bool;
  (** [torch._C._GLIBCXX_USE_CXX11_ABI] *)
  glibcxx_use_cxx11_abi : bool;
  (** [str(chosen_isa)], [chosen_isa.build_arch_flags()] *)
  chosen_isa_str : string;
  chosen_isa_build_arch_flags : string;
  (** [cpp_extension._TORCH_PATH], [cpp_extension.TORCH_LIB_PATH] *)
  TORCH_PATH : string;
  TORCH_LIB_PATH : string;
  (** [sysconfig.get_path("include", scheme=...)], [sysconfig.get_config_var("LIBDIR")] *)
  sysconfig_include_path : option string;
  sysconfig_LIBDIR : string;
  (** first line of the output of [<compiler> --version]:
      [subprocess.check_output([c, "--version"]).decode("utf8").splitlines()[0]] *)
  compiler_version_first_line : string -> result string;
  (** [os.getenv("OMP_PREFIX")], [os.getenv("CONDA_PREFIX")] *)
  getenv_OMP_PREFIX : option string;
  getenv_CONDA_PREFIX : option string;
  (** [os.path.exists] while options are composed *)
  os_path_exists : string -> bool;
  (** [codecache.is_conda_llvm_openmp_installed()], [codecache.homebrew_libomp()] *)
  is_conda_llvm_openmp_installed : bool;
  homebrew_libomp : bool * string;
  (** [config.cuda.cuda_cxx], [os.getenv("CUDACXX")], [os.getenv("CUDA_HOME")] *)
  config_cuda_cxx : option string;
  getenv_CUDACXX : option string;
  getenv_CUDA_HOME : option string;
  (** [cuda_env.nvcc_exist], [cuda_env.get_cuda_arch()] *)
  nvcc_exist : option string -> bool;
  get_cuda_arch : option string;
  (** [config.cuda.cutlass_dir], [cpp_extension._join_cuda_home] applied to its path components *)
  config_cutlass_dir : string;
  _join_cuda_home : list string -> result string;
  (** [config.cuda.enable_cuda_lto], [.compile_opt_level], [.enable_debug_info],
      [.enable_ptxas_info], [.use_fast_math] *)
  config_enable_cuda_lto : bool;
  config_compile_opt_level : string;
  config_enable_debug_info : bool;
  config_enable_ptxas_info : bool;
  config_use_fast_math : bool;
  (** [ntpath.join(a, *ps)], the [os.path.join] of a Windows interpreter *)
  ntpath_join : string -> list string -> string
}.

Section Composer.

Variable env : Env.

(** [_IS_LINUX], [_IS_MACOS], [_IS_WINDOWS] *)
Definition _IS_LINUX : bool := Py.startswith "linux" (sys_platform env).
Definition _IS_MACOS : bool := Py.startswith "darwin" (sys_platform env).
Definition _IS_WINDOWS : bool := String.eqb (sys_platform env) "win32".

(** [os.path.join(a, *ps)] *)
Definition os_path_join (a : string) (ps : list string) : string :=
  if _IS_WINDOWS then ntpath_join env a ps else Py.posixpath_join a ps.

(** [_get_cxx_compiler()] *)
Definition _get_cxx_compiler : string :=
  if _IS_WINDOWS then
    match environ_CXX env with
    | Some c => c
    | None => "cl"
    end
  else codecache_cpp_compiler env.

(** [is_gcc]: [re.search(r"(gcc|g\+\+)", cpp_compiler)] *)
Definition is_gcc (cpp_compiler : string) : bool :=
  Py.str_in "gcc" cpp_compiler || Py.str_in "g++" cpp_compiler.

(** [is_clang]: [re.search(r"(clang|clang\+\+)", cpp_compiler)] *)
Definition is_clang (cpp_compiler : string) : bool :=
  Py.str_in "clang" cpp_compiler || Py.str_in "clang++" cpp_compiler.

(** [is_apple_clang] *)
Definition is_apple_clang (cpp_compiler : string) : result bool :=
  match compiler_version_first_line env cpp_compiler with
  | Ok line => Ok (Py.str_in "Apple" line)
  | Raise e => Raise e
  end.

(** [get_warning_all_flag(warning_all=False)] *)
Definition get_warning_all_flag (warning_all : bool) : list string :=
  if negb _IS_WINDOWS then (if warning_all then ["Wall"] else [])
  else [].

(** [get_cxx_std(std_num="c++17")] *)
Definition get_cxx_std (std_num : string) : list string :=
  if _IS_WINDOWS then ["std:" ++ std_num] else ["std=" ++ std_num].

(** [get_linux_cpp_cflags] *)
Definition get_linux_cpp_cflags (cpp_compiler : string) : list string :=
  if negb _IS_WINDOWS then
    let cflags := ["Wno-unused-variable"; "Wno-unknown-pragmas"] in
    if is_clang cpp_compiler
    then (cflags ++ ["Werror=ignored-optimization-argument"])%list
    else cflags
  else [].

(** [optimization_cflags] *)
Definition optimization_cflags : list string :=
  if _IS_WINDOWS then ["O2"]
  else
    let cflags := if config_debug_compile env then ["O0"; "g"] else ["O3"; "DNDEBUG"] in
    let cflags := (cflags ++ ["ffast-math"])%list in
    let cflags := (cflags ++ ["fno-finite-math-only"])%list in
    let cflags :=
      if negb (config_enable_unsafe_math_opt_flag env)
      then (cflags ++ ["fno-unsafe-math-optimizations"])%list
      else cflags in
    if config_is_fbcode env then cflags
    else if String.eqb (sys_platform env) "darwin" then (cflags ++ ["Xclang"])%list
    else if String.eqb (platform_machine env) "ppc64le" then (cflags ++ ["mcpu=native"])%list
    else (cflags ++ ["march=native"])%list.

(** [CxxOptions._get_shared_cflag] *)
Definition _get_shared_cflag : list string :=
  if _IS_WINDOWS then ["DLL"] else ["shared"; "fPIC"].

(** [get_glibcxx_abi_build_flags] *)
Definition get_glibcxx_abi_build_flags : list string :=
  ["-D_GLIBCXX_USE_CXX11_ABI=" ++ (if glibcxx_use_cxx11_abi env then "1" else "0")].

(** [get_torch_cpp_wrapper_defination] *)
Definition get_torch_cpp_wrapper_defination : list string :=
  ["TORCH_INDUCTOR_CPP_WRAPPER"].

(** [use_custom_generated_macros] *)
Definition use_custom_generated_macros : list string :=
  [" C10_USING_CUSTOM_GENERATED_MACROS"].

(** [use_fb_internal_macros] *)
Definition use_fb_internal_macros : list string :=
  if negb _IS_WINDOWS then
    if config_is_fbcode env then
      [Py.join " " ["-D C10_USE_GLOG"; "-D C10_USE_MINIMAL_GLOG";
                    "-D C10_DISABLE_TENSORIMPL_EXTENSIBILITY"]]
    else []
  else [].

(** [use_standard_sys_dir_headers] *)
Definition use_standard_sys_dir_headers : list string :=
  if _IS_WINDOWS then []
  else if config_is_fbcode env then ["nostdinc"] else [].

(** [get_build_args_of_chosen_isa] *)
Definition get_build_args_of_chosen_isa : list string * list string :=
  let cap := Py.upper (chosen_isa_str env) in
  let macros := ["CPU_CAPABILITY=" ++ cap;
                 "CPU_CAPABILITY_" ++ cap;
                 "HAVE_" ++ cap ++ "_CPU_DEFINITION"] in
  let build_flags := [chosen_isa_build_arch_flags env] in
  (macros, build_flags).

(** [get_torch_related_args] *)
Definition get_torch_related_args : list string * list string * list string :=
  let include_dirs :=
    [os_path_join (TORCH_PATH env) ["include"];
     os_path_join (TORCH_PATH env) ["include"; "torch"; "csrc"; "api"; "include"];
     os_path_join (TORCH_PATH env) ["include"; "TH"];
     os_path_join (TORCH_PATH env) ["include"; "THC"]] in
  let libraries_dirs := [TORCH_LIB_PATH env] in
  let libraries := ["torch"; "torch_cpu"; "c10"] in
  (include_dirs, libraries_dirs, libraries).

(** [get_python_related_args] *)
Definition get_python_related_args : list string * list string :=
  let python_include_dirs :=
    match sysconfig_include_path env with
    | Some p => [p]
    | None => []
    end in
  let python_lib_path :=
    if _IS_WINDOWS then [os_path_join (python_exe_dir env) ["libs"]]
    else [sysconfig_LIBDIR env] in
  (python_include_dirs, python_lib_path).

(** Sequencing of computations that can raise and touch no state. *)
Definition rbind {A B} (r : result A) (k : A -> result B) : result B :=
  match r with
  | Ok a => k a
  | Raise e => Raise e
  end.

(** The five lists [get_openmp_args] returns:
    [(cflags, ldflags, include_dir_paths, lib_dir_paths, libs)]. *)
Definition openmp_args : Type :=
  (list string * list string * list string * list string * list string)%type.

(** The macOS branch of [get_openmp_args], after [is_apple_clang] returned. *)
Definition get_openmp_args_macos (apple : bool) : openmp_args :=
  let omp_available := negb apple in
  (* check the OMP_PREFIX environment first *)
  let '(include_dir_paths, lib_dir_paths, omp_available) :=
    match getenv_OMP_PREFIX env with
    | Some omp_prefix =>
        let header_path := os_path_join omp_prefix ["include"; "omp.h"] in
        let valid_env := os_path_exists env header_path in
        if valid_env
        then ([os_path_join omp_prefix ["include"]],
              [os_path_join omp_prefix ["lib"]],
              omp_available || valid_env)
        else ([], [], omp_available || valid_env)
    | None => ([], [], omp_available)
    end in
  let libs := if negb omp_available then ["omp"] else [] in
  (* prefer to use openmp from conda *)
  let '(include_dir_paths, lib_dir_paths, libs, omp_available) :=
    match getenv_CONDA_PREFIX env with
    | Some conda_prefix =>
        if negb omp_available then
          let omp_available := is_conda_llvm_openmp_installed env in
          if omp_available then
            let conda_lib_path := os_path_join conda_prefix ["lib"] in
            let include_dir_paths :=
              (include_dir_paths ++ [os_path_join conda_prefix ["include"]])%list in
            let lib_dir_paths := (lib_dir_paths ++ [conda_lib_path])%list in
            let libs :=
              if String.eqb (os_uname_machine env) "x86_64"
                 && os_path_exists env (os_path_join conda_lib_path ["libiomp5.dylib"])
              then (libs ++ ["iomp5"])%list
              else libs in
            (include_dir_paths, lib_dir_paths, libs, omp_available)
          else (include_dir_paths, lib_dir_paths, libs, omp_available)
        else (include_dir_paths, lib_dir_paths, libs, omp_available)
    | None => (include_dir_paths, lib_dir_paths, libs, omp_available)
    end in
  (* next, try to use openmp from brew *)
  let '(include_dir_paths, lib_dir_paths) :=
    if negb omp_available then
      let '(omp_available, libomp_path) := homebrew_libomp env in
      if omp_available
      then ((include_dir_paths ++ [os_path_join libomp_path ["include"]])%list,
            (lib_dir_paths ++ [os_path_join libomp_path ["lib"]])%list)
      else (include_dir_paths, lib_dir_paths)
    else (include_dir_paths, lib_dir_paths) in
  ([], [], include_dir_paths, lib_dir_paths, libs).

(** [get_openmp_args] *)
Definition get_openmp_args (cpp_compiler : string) : result openmp_args :=
  if _IS_MACOS then
    rbind (is_apple_clang cpp_compiler) (fun apple =>
    Ok (get_openmp_args_macos apple))
  else if _IS_WINDOWS then
    Ok (["openmp"], [], [], [], [])
  else
    if config_is_fbcode env then
      Ok ([], [], [], [], ["omp"])
    else
      if is_clang cpp_compiler then
        Ok (["fopenmp"], [], [], [], ["gomp"])
      else
        Ok (["fopenmp"], [], [], [], ["gomp"]).

(** [_cuda_compiler]; the return type is [Optional[str]] *)
Definition _cuda_compiler : option string :=
  if nvcc_exist env (config_cuda_cxx env) then config_cuda_cxx env
  else if nvcc_exist env (getenv_CUDACXX env) then
    Some (match getenv_CUDACXX env with Some v => v | None => "" end)
  else if nvcc_exist env (getenv_CUDA_HOME env) then
    Some (os_path_join
            (match getenv_CUDA_HOME env with Some v => v | None => "" end)
            ["bin/nvcc"])
  else Some "nvcc".

(** [get_torch_cuda_args]: [(cuda_include_dirs, cuda_libs, cuda_lib_dirs)] *)
Definition get_torch_cuda_args : result (list string * list string * list string) :=
  let cutlass_path := config_cutlass_dir env in
  let cuda_include_dirs :=
    [os_path_join cutlass_path ["include"];
     os_path_join cutlass_path ["tools/library/include"];
     os_path_join cutlass_path ["tools/library/src"];
     os_path_join cutlass_path ["tools/util/include"]] in
  if _IS_LINUX then
    rbind (_join_cuda_home env ["lib64"]) (fun lib64 =>
    rbind (if negb (os_path_exists env lib64)
           then rbind (_join_cuda_home env ["lib"]) (fun lib =>
                Ok (if os_path_exists env lib then "lib" else "lib64"))
           else Ok "lib64") (fun extra_lib_dir =>
    rbind (_join_cuda_home env [extra_lib_dir]) (fun d1 =>
    rbind (_join_cuda_home env [extra_lib_dir; "stubs"]) (fun d2 =>
    Ok (cuda_include_dirs, ["cuda"; "cudart"], [d1; d2])))))
  else
    Raise (NotImplementedError
      "Unsupported env, failed to find cuda libs! Currently only Linux is supported.").

(** [get_nvcc_host_compiler_options] *)
Definition get_nvcc_host_compiler_options : list string :=
  if negb _IS_WINDOWS
  then ["fPIC"; "fno-strict-aliasing"; "fvisibility=hidden"; "Wconversion"]
  else [].

(** [get_nvcc_compiler_options]: [(cuda_cflags, cuda_defines, cuda_pass_args)] *)
Definition get_nvcc_compiler_options
  : result (list string * list string * list string) :=
  if negb _IS_WINDOWS then
    let arch :=
      match get_cuda_arch env with
      | Some a => if String.eqb a "90" then "90a" else a
      | None => Py.str_of_optional None
      end in
    let code := ["sm_" ++ arch; "compute_" ++ arch] in
    let code := if config_enable_cuda_lto env then (code ++ [("lto_" ++ arch)%string])%list else code in
    let cuda_cflags := ["t=0"] in
    let cuda_defines := ["CUTLASS_ENABLE_TENSOR_CORE_MMA=1"] in
    let cuda_pass_args :=
      ["-w";
       "-gencode=arch=compute_" ++ arch ++ ",code=[" ++ Py.join "," code ++ "]";
       config_compile_opt_level env;
       "--expt-relaxed-constexpr"] in
    let '(cuda_cflags, cuda_defines) :=
      if config_enable_debug_info env
      then ((cuda_cflags ++ ["lineinfo"; "g"])%list,
            (cuda_defines ++ ["CUTLASS_DEBUG_TRACE_LEVEL=1"])%list)
      else (cuda_cflags, cuda_defines) in
    let cuda_pass_args :=
      if config_enable_ptxas_info env
      then (cuda_pass_args ++
            ["--keep";
             "--ptxas-options=--warn-on-local-memory-usage";
             "--ptxas-options=--warn-on-spills";
             "--resource-usage";
             "--source-in-ptx"])%list
      else cuda_pass_args in
    let '(cuda_pass_args, cuda_defines) :=
      if config_use_fast_math env
      then ((cuda_pass_args ++ ["--use_fast_math"])%list,
            (cuda_defines ++ ["CUTLASS_USE_TANH_FOR_SIGMOID=1"])%list)
      else (cuda_pass_args, cuda_defines) in
    Ok (cuda_cflags, cuda_defines, cuda_pass_args)
  else
    Raise (NotImplementedError
      "Unsupported env, failed to find cuda libs! Currently only Linux is supported.").

End Composer.

(* ===================================================================== *)
(** ** The option classes *)
(* ===================================================================== *)

(** The seven list attributes declared in the body of [class BuildOptionsBase].
    No [__init__] assigns them on [self], so [self._cflags] (and the like)
    always resolves to the class attribute: one list object per attribute for
    the whole process, mutated in place by [_nonduplicate_append]. *)
Record Store : Type := {
  _definations : list string;
  _include_dirs : list string;
  _cflags : list string;
  _ldflags : list string;
  _libraries_dirs : list string;
  _libraries : list string;
  _passthough_args : list string
}.

(** The class attributes when the module has just been imported. *)
Definition initial_store : Store :=
  {| _definations := []; _include_dirs := []; _cflags := []; _ldflags := [];
     _libraries_dirs := []; _libraries := []; _passthough_args := [] |}.

(** The names of the seven attributes. *)
Inductive attr : Type :=
| self_definations
| self_include_dirs
| self_cflags
| self_ldflags
| self_libraries_dirs
| self_libraries
| self_passthough_args.

Definition all_attrs : list attr :=
  [self_definations; self_include_dirs; self_cflags; self_ldflags;
   self_libraries_dirs; self_libraries; self_passthough_args].

Definition attr_eqb (a b : attr) : bool :=
  match a, b with
  | self_definations, self_definations
  | self_include_dirs, self_include_dirs
  | self_cflags, self_cflags
  | self_ldflags, self_ldflags
  | self_libraries_dirs, self_libraries_dirs
  | self_libraries, self_libraries
  | self_passthough_args, self_passthough_args => true
  | _, _ => false
  end.

Definition getattr (a : attr) (s : Store) : list string :=
  match a with
  | self_definations => _definations s
  | self_include_dirs => _include_dirs s
  | self_cflags => _cflags s
  | self_ldflags => _ldflags s
  | self_libraries_dirs => _libraries_dirs s
  | self_libraries => _libraries s
  | self_passthough_args => _passthough_args s
  end.

(** The store in which the list object of attribute [a] holds [l]. *)
Definition with_attr (a : attr) (l : list string) (s : Store) : Store :=
  match a with
  | self_definations =>
      {| _definations := l; _include_dirs := _include_dirs s; _cflags := _cflags s;
         _ldflags := _ldflags s; _libraries_dirs := _libraries_dirs s;
         _libraries := _libraries s; _passthough_args := _passthough_args s |}
  | self_include_dirs =>
      {| _definations := _definations s; _include_dirs := l; _cflags := _cflags s;
         _ldflags := _ldflags s; _libraries_dirs := _libraries_dirs s;
         _libraries := _libraries s; _passthough_args := _passthough_args s |}
  | self_cflags =>
      {| _definations := _definations s; _include_dirs := _include_dirs s; _cflags := l;
         _ldflags := _ldflags s; _libraries_dirs := _libraries_dirs s;
         _libraries := _libraries s; _passthough_args := _passthough_args s |}
  | self_ldflags =>
      {| _definations := _definations s; _include_dirs := _include_dirs s;
         _cflags := _cflags s; _ldflags := l; _libraries_dirs := _libraries_dirs s;
         _libraries := _libraries s; _passthough_args := _passthough_args s |}
  | self_libraries_dirs =>
      {| _definations := _definations s; _include_dirs := _include_dirs s;
         _cflags := _cflags s; _ldflags := _ldflags s; _libraries_dirs := l;
         _libraries := _libraries s; _passthough_args := _passthough_args s |}
  | self_libraries =>
      {| _definations := _definations s; _include_dirs := _include_dirs s;
         _cflags := _cflags s; _ldflags := _ldflags s;
         _libraries_dirs := _libraries_dirs s; _libraries := l;
         _passthough_args := _passthough_args s |}
  | self_passthough_args =>
      {| _definations := _definations s; _include_dirs := _include_dirs s;
         _cflags := _cflags s; _ldflags := _ldflags s;
         _libraries_dirs := _libraries_dirs s; _libraries := _libraries s;
         _passthough_args := l |}
  end.

(** The statement [_nonduplicate_append(self.<a>, src_list)]. *)
Definition nonduplicate_append_to (a : attr) (src_list : list string) : M Store unit :=
  modify (fun s => with_attr a (_nonduplicate_append (getattr a s) src_list) s).

(** What an instance holds in its own [__dict__]: the compiler only. *)
Record BuildOptionsBase : Type := {
  _compiler : string
}.

(** The getters of [BuildOptionsBase].  The list getters return the shared
    class attribute, so their value is read from the store at the time of
    the call. *)
Definition get_compiler (self : BuildOptionsBase) : string := _compiler self.
Definition get_definations (self : BuildOptionsBase) (s : Store) := _definations s.
Definition get_include_dirs (self : BuildOptionsBase) (s : Store) := _include_dirs s.
Definition get_cflags (self : BuildOptionsBase) (s : Store) := _cflags s.
Definition get_ldflags (self : BuildOptionsBase) (s : Store) := _ldflags s.
Definition get_libraries_dirs (self : BuildOptionsBase) (s : Store) := _libraries_dirs s.
Definition get_libraries (self : BuildOptionsBase) (s : Store) := _libraries s.
Definition get_passthough_args (self : BuildOptionsBase) (s : Store) := _passthough_args s.

Section OptionClasses.

Variable env : Env.

Local Open Scope m_scope.

(** [CxxOptions.__init__] *)
Definition CxxOptions__init__ : M Store BuildOptionsBase :=
  let self := {| _compiler := _get_cxx_compiler env |} in
  nonduplicate_append_to self_cflags (_get_shared_cflag env) ;;;
  nonduplicate_append_to self_cflags (optimization_cflags env) ;;;
  nonduplicate_append_to self_cflags (get_warning_all_flag env false) ;;;
  nonduplicate_append_to self_cflags (get_cxx_std env "c++17") ;;;
  nonduplicate_append_to self_cflags (get_linux_cpp_cflags env (_compiler self)) ;;;
  ret self.

(** [CxxTorchOptions.__init__] *)
Definition CxxTorchOptions__init__ : M Store BuildOptionsBase :=
  self <- CxxOptions__init__ ;;
  nonduplicate_append_to self_definations get_torch_cpp_wrapper_defination ;;;
  nonduplicate_append_to self_definations use_custom_generated_macros ;;;
  nonduplicate_append_to self_cflags (use_standard_sys_dir_headers env) ;;;
  let '(macros, build_flags) := get_build_args_of_chosen_isa env in
  nonduplicate_append_to self_definations macros ;;;
  nonduplicate_append_to self_passthough_args build_flags ;;;
  let '(torch_include_dirs, torch_libraries_dirs, torch_libraries) :=
    get_torch_related_args env in
  nonduplicate_append_to self_include_dirs torch_include_dirs ;;;
  nonduplicate_append_to self_libraries_dirs torch_libraries_dirs ;;;
  nonduplicate_append_to self_libraries torch_libraries ;;;
  let '(python_include_dirs, python_libraries_dirs) := get_python_related_args env in
  nonduplicate_append_to self_include_dirs python_include_dirs ;;;
  nonduplicate_append_to self_libraries_dirs python_libraries_dirs ;;;
  ' (omp_cflags, omp_ldflags, omp_include_dir_paths, omp_lib_dir_paths, omp_lib)
    <- lift (get_openmp_args env (_compiler self)) ;;
  nonduplicate_append_to self_cflags omp_cflags ;;;
  nonduplicate_append_to self_ldflags omp_ldflags ;;;
  nonduplicate_append_to self_include_dirs omp_include_dir_paths ;;;
  nonduplicate_append_to self_libraries_dirs omp_lib_dir_paths ;;;
  nonduplicate_append_to self_libraries omp_lib ;;;
  (if negb (_IS_WINDOWS env) then
     nonduplicate_append_to self_passthough_args (get_glibcxx_abi_build_flags env) ;;;
     nonduplicate_append_to self_passthough_args (use_fb_internal_macros env)
   else ret tt) ;;;
  ret self.

(** [CxxTorchCudaOptions.__init__] *)
Definition CxxTorchCudaOptions__init__ : M Store BuildOptionsBase :=
  self <- CxxTorchOptions__init__ ;;
  (* re-setup to cuda compiler *)
  let nvcc := _cuda_compiler env in
  let self :=
    match nvcc with
    | Some c => {| _compiler := c |}
    | None => self
    end in
  ' (cuda_include_dirs, cuda_libs, cuda_lib_dirs) <- lift (get_torch_cuda_args env) ;;
  nonduplicate_append_to self_include_dirs cuda_include_dirs ;;;
  nonduplicate_append_to self_libraries cuda_libs ;;;
  nonduplicate_append_to self_libraries_dirs cuda_lib_dirs ;;;
  let cuda_host_cflags := get_nvcc_host_compiler_options env in
  ' (cuda_cflags, cuda_defines, cuda_pass_args) <- lift (get_nvcc_compiler_options env) ;;
  nonduplicate_append_to self_cflags cuda_host_cflags ;;;
  nonduplicate_append_to self_cflags cuda_cflags ;;;
  nonduplicate_append_to self_cflags cuda_defines ;;;
  nonduplicate_append_to self_cflags cuda_pass_args ;;;
  ret self.

End OptionClasses.

(** The three option classes, and construction of an instance of one. *)
Inductive option_class : Type :=
| CxxOptions
| CxxTorchOptions
| CxxTorchCudaOptions.

Definition construct (env : Env) (c : option_class) : M Store BuildOptionsBase :=
  match c with
  | CxxOptions => CxxOptions__init__ env
  | CxxTorchOptions => CxxTorchOptions__init__ env
  | CxxTorchCudaOptions => CxxTorchCudaOptions__init__ env
  end.

(* ===================================================================== *)
(** ** [CxxBuilder]: rendering the command line *)
(* ===================================================================== *)

(** The double quote, the backslash, the slash and the line feed. *)
Definition dquote : string := String "034"%char EmptyString.
Definition backslash_char : ascii := "092"%char.
Definition slash_char : ascii := "/"%char.
Definition LF : string := String "010"%char EmptyString.

(** [s.replace("\\", "/")], the last step of the Windows command line *)
Definition to_slashes (s : string) : string :=
  Py.replace_char backslash_char slash_char s.

(** [_BUILD_TEMP_DIR] *)
Definition _BUILD_TEMP_DIR : string := "CxxBuild".

(** The attributes of a [CxxBuilder]; [b_compiler] is its [_compiler]. *)
Record CxxBuilder : Type := {
  b_compiler : string;
  _cflags_args : string;
  _definations_args : string;
  _include_dirs_args : string;
  _ldflags_args : string;
  _libraries_dirs_args : string;
  _libraries_args : string;
  _passthough_parameters_args : string;
  _name : string;
  _sources_args : string;
  _output_dir : string;
  _target_file : string
}.

Section Builder.

Variable env : Env.

(** [CxxBuilder.get_shared_lib_ext] *)
Definition get_shared_lib_ext : string :=
  if _IS_WINDOWS env then ".dll" else ".so".

(** The text one entry adds to its argument string: the f-strings in the
    loops of [CxxBuilder.__init__]. *)
Definition fmt_cflag (cflag : string) : string :=
  if _IS_WINDOWS env then "/" ++ cflag ++ " " else "-" ++ cflag ++ " ".

Definition fmt_defination (defination : string) : string :=
  if _IS_WINDOWS env then "/D " ++ defination ++ " " else "-D" ++ defination ++ " ".

Definition fmt_include_dir (inc_dir : string) : string :=
  if _IS_WINDOWS env then "/I " ++ inc_dir ++ " " else "-I" ++ inc_dir ++ " ".

Definition fmt_ldflag (ldflag : string) : string :=
  if _IS_WINDOWS env then "/" ++ ldflag ++ " " else "-" ++ ldflag ++ " ".

Definition fmt_lib_dir (lib_dir : string) : string :=
  if _IS_WINDOWS env
  then "/LIBPATH:" ++ dquote ++ lib_dir ++ dquote ++ " "
  else "-L" ++ lib_dir ++ " ".

Definition fmt_lib (lib : string) : string :=
  if _IS_WINDOWS env
  then dquote ++ lib ++ ".lib" ++ dquote ++ " "
  else "-l" ++ lib ++ " ".

Definition fmt_passthough_arg (passthough_arg : string) : string :=
  passthough_arg ++ " ".

(** [for x in l: acc += fmt(x)], starting from the class default [""] *)
Definition accumulate (fmt : string -> string) (l : list string) : string :=
  fold_left (fun acc x => acc ++ fmt x) l "".

(** [CxxBuilder.__init__(name, sources, BuildOption, output_dir)].  The
    getters of [BuildOption] are called while the builder is constructed:
    [s] is the store at that time.  [output_dir] is [None] or a string. *)
Definition CxxBuilder__init__ (name : string) (sources : list string)
    (BuildOption : BuildOptionsBase) (s : Store) (output_dir : option string)
  : CxxBuilder :=
  let out_dir :=
    match output_dir with
    | None => module_dir env
    | Some d => d
    end in
  {| _name := name;
     _sources_args := Py.join " " sources;
     _output_dir := out_dir;
     _target_file := os_path_join env out_dir [name ++ get_shared_lib_ext];
     b_compiler := get_compiler BuildOption;
     _cflags_args := accumulate fmt_cflag (get_cflags BuildOption s);
     _definations_args := accumulate fmt_defination (get_definations BuildOption s);
     _include_dirs_args := accumulate fmt_include_dir (get_include_dirs BuildOption s);
     _ldflags_args := accumulate fmt_ldflag (get_ldflags BuildOption s);
     _libraries_dirs_args := accumulate fmt_lib_dir (get_libraries_dirs BuildOption s);
     _libraries_args := accumulate fmt_lib (get_libraries BuildOption s);
     _passthough_parameters_args :=
       accumulate fmt_passthough_arg (get_passthough_args BuildOption s) |}.

(** [format_build_command], the local function of [get_command_line] *)
Definition format_build_command
    (compiler sources include_dirs_args definations_args cflags_args ldflags_args
     libraries_args libraries_dirs_args passthougn_args target_file : string)
  : string :=
  if _IS_WINDOWS env then
    let cmd :=
      compiler ++ " " ++ include_dirs_args ++ " " ++ definations_args ++ " "
      ++ cflags_args ++ " " ++ sources ++ " "
      ++ passthougn_args ++ " /LD /Fe" ++ target_file ++ " /link "
      ++ libraries_dirs_args ++ " " ++ libraries_args ++ " " ++ ldflags_args ++ " " in
    to_slashes cmd
  else
    compiler ++ " " ++ sources ++ " " ++ definations_args ++ " " ++ cflags_args ++ " "
    ++ include_dirs_args ++ " " ++ passthougn_args ++ " "
    ++ ldflags_args ++ " " ++ libraries_args ++ " " ++ libraries_dirs_args
    ++ " -o " ++ target_file.

(** [CxxBuilder.get_command_line] *)
Definition get_command_line (self : CxxBuilder) : string :=
  format_build_command
    (b_compiler self) (_sources_args self) (_include_dirs_args self)
    (_definations_args self) (_cflags_args self) (_ldflags_args self)
    (_libraries_args self) (_libraries_dirs_args self)
    (_passthough_parameters_args self) (_target_file self).

(** [CxxBuilder.get_target_file_path] *)
Definition get_target_file_path (self : CxxBuilder) : string := _target_file self.

End Builder.

(* ===================================================================== *)
(** ** The command runner *)
(* ===================================================================== *)

(** The file system the runner works on: the paths that exist. *)
Definition FS : Type := list string.

(** A Python value [build] can hand back as its first component. *)
Inductive pyobj : Type :=
| PyInt (n : Z)
| PyBytes (b : string).

(** What the runner uses from the standard library and the operating system.
    - [shlex_split]: [shlex.split], which raises [ValueError] on an unbalanced
      quotation;
    - [spawn cmd cwd]: the child process of [subprocess.check_output(cmd,
      cwd=cwd, stderr=subprocess.STDOUT)]: what it does to the file system,
      and either its return code with the bytes captured from stdout and
      stderr together, or the exception raised because it could not be
      started;
    - [decode_utf8]: [bytes.decode("utf-8")];
    - [mkdir_errno p fs]: the [errno] of the [OSError] that
      [Path(p).mkdir(parents=True, exist_ok=True)] raises on [fs], if any;
    - [mkdir_progress p fs]: when that call fails, how many of the
      directories above [p] it had gone through, from the top, creating the
      missing ones, before it failed. *)
Record Host : Type := {
  shlex_split : string -> result (list string);
  spawn : list string -> option string -> M FS (Z * string);
  decode_utf8 : string -> result string;
  mkdir_errno : string -> FS -> option Z;
  mkdir_progress : string -> FS -> nat
}.

(** [errno.EEXIST] *)
Definition EEXIST : Z := 17.

(** The directories above [rest], given the text [pre] already read. *)
Fixpoint ancestors_from (pre rest : string) : list string :=
  match rest with
  | EmptyString => []
  | String c rest' =>
      ((if Ascii.eqb c slash_char && negb (String.eqb pre "") then [pre] else [])
       ++ ancestors_from (pre ++ String c EmptyString) rest')%list
  end.

(** A successful [Path(p).mkdir(parents=True, exist_ok=True)].  The empty
    path stands for the current directory. *)
Definition mkdir_parents (p : string) (fs : FS) : FS :=
  _nonduplicate_append fs (ancestors_from "" p ++ [p])%list.

(** A failed [Path(p).mkdir(parents=True, exist_ok=True)] that had gone
    through the first [n] directories above [p]: the missing ones among them
    exist now, [p] was not created. *)
Definition mkdir_partial (n : nat) (p : string) (fs : FS) : FS :=
  _nonduplicate_append fs (firstn n (ancestors_from "" p)).

(** [os.path.exists(p)]; the empty path does not exist. *)
Definition fs_exists (fs : FS) (p : string) : bool :=
  negb (String.eqb p "") && Py.mem p fs.

(** The remediation text of [run_command_line]. *)
Definition instruction : string :=
  LF ++ LF ++ "OpenMP support not found. Please try one of the following solutions:" ++ LF
  ++ "(1) Set the `CXX` environment variable to a compiler other than Apple clang++/g++ "
  ++ "that has builtin OpenMP support;" ++ LF
  ++ "(2) install OpenMP via conda: `conda install llvm-openmp`;" ++ LF
  ++ "(3) install libomp via brew: `brew install libomp`;" ++ LF
  ++ "(4) manually setup OpenMP and set the `OMP_PREFIX` environment variable to point to a path"
  ++ " with `include/omp.h` under it.".

Section Runner.

Variable env : Env.
Variable host : Host.

Local Open Scope m_scope.

(** [_create_if_dir_not_exist] *)
Definition _create_if_dir_not_exist (path_dir : string) : M FS unit :=
  fun fs =>
    if negb (fs_exists fs path_dir) then
      match mkdir_errno host path_dir fs with
      | None => (Ok tt, mkdir_parents path_dir fs)
      | Some errno =>
          let fs' := mkdir_partial (mkdir_progress host path_dir fs) path_dir fs in
          (* Guard against race condition *)
          if negb (Z.eqb errno EEXIST)
          then (Raise (RuntimeError ("Fail to create path " ++ path_dir)), fs')
          else (Ok tt, fs')
      end
    else (Ok tt, fs).

(** [q] is [p] or lies below it.  The slash separates path components
    everywhere, the backslash on Windows only: elsewhere it is a character
    of a file name. *)
Definition in_tree (p q : string) : bool :=
  String.eqb q p
  || Py.startswith (p ++ "/") q
  || (_IS_WINDOWS env && Py.startswith (p ++ String backslash_char EmptyString) q).

(** [_remove_dir], on a file system of plain files and directories that the
    process may remove: the bottom-up walk then removes every file and
    directory below [path_dir], and [os.rmdir] removes [path_dir] itself.
    Links to directories, a [path_dir] that is a regular file and missing
    permissions, on which [os.rmdir] or [os.remove] raise, are not part of
    [FS]. *)
Definition _remove_dir (path_dir : string) : M FS unit :=
  fun fs =>
    if fs_exists fs path_dir
    then (Ok tt, filter (fun q => negb (in_tree path_dir q)) fs)
    else (Ok tt, fs).

(** The text of the error when the child returned a non-zero code: the
    handler of [subprocess.CalledProcessError] in [run_command_line]. *)
Definition compile_error_output (output : string) : string :=
  let openmp_problem :=
    Py.str_in "'omp.h' file not found" output || Py.str_in "libomp" output in
  if openmp_problem && String.eqb (sys_platform env) "darwin"
  then output ++ instruction
  else output.

(** [run_command_line(cmd_line, cwd)] *)
Definition run_command_line (cmd_line : string) (cwd : option string) : M FS pyobj :=
  cmd <- lift (shlex_split host cmd_line) ;;
  ' (returncode, captured) <- spawn host cmd cwd ;;
  if Z.eqb returncode 0 then
    (* [check_output] returns the captured bytes *)
    ret (PyBytes captured)
  else
    (* [check_output] raises [CalledProcessError], handled here *)
    output <- lift (decode_utf8 host captured) ;;
    raise (CppCompileError cmd (compile_error_output output)).

(** The scratch directory of [build]. *)
Definition build_tmp_dir (self : CxxBuilder) : string :=
  os_path_join env (_output_dir self) [_name self ++ "_" ++ _BUILD_TEMP_DIR].

(** [CxxBuilder.build]; the [print] of the command is left out. *)
Definition build (self : CxxBuilder) : M FS (pyobj * string) :=
  _create_if_dir_not_exist (_output_dir self) ;;;
  let _build_tmp_dir := build_tmp_dir self in
  _create_if_dir_not_exist _build_tmp_dir ;;;
  let build_cmd := get_command_line env self in
  status <- run_command_line build_cmd (Some _build_tmp_dir) ;;
  _remove_dir _build_tmp_dir ;;;
  ret (status, _target_file self).

End Runner.

(* ===================================================================== *)
(** ** Notions used to state the properties *)
(* ===================================================================== *)

(** Every one of the seven lists is free of duplicates. *)
Definition store_nodup (s : Store) : Prop :=
  forall a : attr, NoDup (getattr a s).

(** Every list of [s1] starts with the list [s] holds for the same attribute:
    entries keep their position, new ones come after them. *)
Definition store_extends (s s1 : Store) : Prop :=
  forall a : attr, exists added, getattr a s1 = (getattr a s ++ added)%list.

(** The texts of [l] written one after the other. *)
Definition concat_all (l : list string) : string :=
  fold_right append "" l.

(** The texts of the entries of [l], each rendered by [fmt], in order. *)
Definition tokens (fmt : string -> string) (l : list string) : string :=
  concat_all (map fmt l).

(** A constructor body seen as the list of its [_nonduplicate_append]
    statements, and the effect of running them in order. *)
Definition step : Type := (attr * list string)%type.

Definition apply_step (s : Store) (st : step) : Store :=
  with_attr (fst st) (_nonduplicate_append (getattr (fst st) s) (snd st)) s.

Definition apply_steps (l : list step) (s : Store) : Store :=
  fold_left apply_step l s.

(** The computation [m] returns a value that does not depend on the store and
    changes the store by a fixed list of [_nonduplicate_append] statements. *)
Definition stepwise {A} (m : M Store A) : Prop :=
  exists (r : result A) (l : list step), forall s, m s = (r, apply_steps l s).



(* ===================================================================== *)
(** ** Concrete surroundings, for running the model on examples *)
(* ===================================================================== *)

(** A Linux machine without a CUDA toolkit on the search path, compiling with
    [compiler]. *)
Definition linux_env (compiler : string) : Env :=
  {| sys_platform := "linux";
     platform_machine := "x86_64";
     os_uname_machine := "x86_64";
     module_dir := "/opt/torch/_inductor/cxx_builder";
     python_exe_dir := "/usr/bin";
     environ_CXX := None;
     codecache_cpp_compiler := compiler;
     config_debug_compile := false;
     config_enable_unsafe_math_opt_flag := false;
     config_is_fbcode := false;
     glibcxx_use_cxx11_abi := true;
     chosen_isa_str := "avx2";
     chosen_isa_build_arch_flags := "-mavx2 -mfma";
     TORCH_PATH := "/opt/torch";
     TORCH_LIB_PATH := "/opt/torch/lib";
     sysconfig_include_path := Some "/usr/include/python3.11";
     sysconfig_LIBDIR := "/usr/lib";
     compiler_version_first_line := fun _ => Ok "g++ (GCC) 13.2.0";
     getenv_OMP_PREFIX := None;
     getenv_CONDA_PREFIX := None;
     os_path_exists := fun p => String.eqb p "/usr/local/cuda/lib64";
     is_conda_llvm_openmp_installed := false;
     homebrew_libomp := (false, "");
     config_cuda_cxx := None;
     getenv_CUDACXX := None;
     getenv_CUDA_HOME := None;
     nvcc_exist := fun o =>
       match o with
       | Some p => String.eqb p "/usr/local/cuda/bin/nvcc"
       | None => false
       end;
     get_cuda_arch := Some "90";
     config_cutlass_dir := "/opt/cutlass";
     _join_cuda_home := fun ps => Ok (Py.posixpath_join "/usr/local/cuda" ps);
     config_enable_cuda_lto := false;
     config_compile_opt_level := "-O1";
     config_enable_debug_info := false;
     config_enable_ptxas_info := false;
     config_use_fast_math := false;
     ntpath_join := fun a ps => Py.posixpath_join a ps |}.

(** The same machine seen by other interpreters: only [sys.platform] and the
    compiler differ, and on Windows the path separator. *)
Definition with_platform (platform compiler : string) : Env :=
  let e := linux_env compiler in
  {| sys_platform := platform;
     platform_machine := platform_machine e; os_uname_machine := os_uname_machine e;
     module_dir := module_dir e; python_exe_dir := python_exe_dir e;
     environ_CXX := environ_CXX e; codecache_cpp_compiler := compiler;
     config_debug_compile := config_debug_compile e;
     config_enable_unsafe_math_opt_flag := config_enable_unsafe_math_opt_flag e;
     config_is_fbcode := config_is_fbcode e;
     glibcxx_use_cxx11_abi := glibcxx_use_cxx11_abi e;
     chosen_isa_str := chosen_isa_str e;
     chosen_isa_build_arch_flags := chosen_isa_build_arch_flags e;
     TORCH_PATH := TORCH_PATH e; TORCH_LIB_PATH := TORCH_LIB_PATH e;
     sysconfig_include_path := sysconfig_include_path e;
     sysconfig_LIBDIR := sysconfig_LIBDIR e;
     compiler_version_first_line := compiler_version_first_line e;
     getenv_OMP_PREFIX := getenv_OMP_PREFIX e;
     getenv_CONDA_PREFIX := getenv_CONDA_PREFIX e;
     os_path_exists := os_path_exists e;
     is_conda_llvm_openmp_installed := is_conda_llvm_openmp_installed e;
     homebrew_libomp := homebrew_libomp e;
     config_cuda_cxx := config_cuda_cxx e;
     getenv_CUDACXX := getenv_CUDACXX e;
     getenv_CUDA_HOME := getenv_CUDA_HOME e;
     nvcc_exist := nvcc_exist e;
     get_cuda_arch := get_cuda_arch e;
     config_cutlass_dir := config_cutlass_dir e;
     _join_cuda_home := _join_cuda_home e;
     config_enable_cuda_lto := config_enable_cuda_lto e;
     config_compile_opt_level := config_compile_opt_level e;
     config_enable_debug_info := config_enable_debug_info e;
     config_enable_ptxas_info := config_enable_ptxas_info e;
     config_use_fast_math := config_use_fast_math e;
     ntpath_join := fun a ps =>
       fold_left (fun p b => p ++ String backslash_char EmptyString ++ b) ps a |}.

Definition windows_env : Env := with_platform "win32" "cl".
Definition darwin_env : Env := with_platform "darwin" "clang++".

(** Splitting a command line at its blanks: what [shlex.split] returns for a
    command line without quotes or escapes. *)
Fixpoint words_from (cur s : string) : list string :=
  match s with
  | EmptyString => if String.eqb cur "" then [] else [cur]
  | String c s' =>
      if Ascii.eqb c " "%char
      then ((if String.eqb cur "" then [] else [cur]) ++ words_from "" s')%list
      else words_from (cur ++ String c EmptyString) s'
  end.

(** A host whose compiler returns [returncode] after printing [captured] and
    leaving one object file in its working directory. *)
Definition sample_host (returncode : Z) (captured : string) : Host :=
  {| shlex_split := fun s => Ok (words_from "" s);
     spawn := fun cmd cwd fs =>
       (Ok (returncode, captured),
        match cwd with
        | Some d => (fs ++ [(d ++ "/k.o")%string])%list
        | None => fs
        end);
     decode_utf8 := fun b => Ok b;
     mkdir_errno := fun _ _ => None;
     mkdir_progress := fun _ _ => 0%nat |}.

(** An options instance and the store it reads, for rendering examples. *)
Definition demo_options : BuildOptionsBase := {| _compiler := "g++" |}.

Definition demo_store : Store :=
  {| _definations := ["NDEBUG"]; _include_dirs := ["/opt/torch/include"];
     _cflags := ["O3"]; _ldflags := ["s"]; _libraries_dirs := ["/opt/torch/lib"];
     _libraries := ["c10"]; _passthough_args := ["-mavx2"] |}.

(** The computation [m] leaves the list of attribute [a] as it found it. *)
Definition untouched {A} (a : attr) (m : M Store A) : Prop :=
  forall s, getattr a (snd (m s)) = getattr a s.

(** The computation [m] returns, and what it does to the list of attribute
    [a] is to append the entries of [l] that are absent, in order. *)
Definition adds {A} (a : attr) (l : list string) (m : M Store A) : Prop :=
  forall s, exists x s',
    m s = (Ok x, s') /\ getattr a s' = _nonduplicate_append (getattr a s) l.

(* ===================================================================== *)
(** ** More surroundings, for further examples *)
(* ===================================================================== *)

(** [e] with other values of [config.aot_inductor.debug_compile],
    [config.cpp.enable_unsafe_math_opt_flag] and [config.is_fbcode()]. *)
Definition with_toggles (e : Env) (debug unsafe_math fbcode : bool) : Env :=
  {| sys_platform := sys_platform e;
     platform_machine := platform_machine e;
     os_uname_machine := os_uname_machine e;
     module_dir := module_dir e;
     python_exe_dir := python_exe_dir e;
     environ_CXX := environ_CXX e;
     codecache_cpp_compiler := codecache_cpp_compiler e;
     config_debug_compile := debug;
     config_enable_unsafe_math_opt_flag := unsafe_math;
     config_is_fbcode := fbcode;
     glibcxx_use_cxx11_abi := glibcxx_use_cxx11_abi e;
     chosen_isa_str := chosen_isa_str e;
     chosen_isa_build_arch_flags := chosen_isa_build_arch_flags e;
     TORCH_PATH := TORCH_PATH e;
     TORCH_LIB_PATH := TORCH_LIB_PATH e;
     sysconfig_include_path := sysconfig_include_path e;
     sysconfig_LIBDIR := sysconfig_LIBDIR e;
     compiler_version_first_line := compiler_version_first_line e;
     getenv_OMP_PREFIX := getenv_OMP_PREFIX e;
     getenv_CONDA_PREFIX := getenv_CONDA_PREFIX e;
     os_path_exists := os_path_exists e;
     is_conda_llvm_openmp_installed := is_conda_llvm_openmp_installed e;
     homebrew_libomp := homebrew_libomp e;
     config_cuda_cxx := config_cuda_cxx e;
     getenv_CUDACXX := getenv_CUDACXX e;
     getenv_CUDA_HOME := getenv_CUDA_HOME e;
     nvcc_exist := nvcc_exist e;
     get_cuda_arch := get_cuda_arch e;
     config_cutlass_dir := config_cutlass_dir e;
     _join_cuda_home := _join_cuda_home e;
     config_enable_cuda_lto := config_enable_cuda_lto e;
     config_compile_opt_level := config_compile_opt_level e;
     config_enable_debug_info := config_enable_debug_info e;
     config_enable_ptxas_info := config_enable_ptxas_info e;
     config_use_fast_math := config_use_fast_math e;
     ntpath_join := ntpath_join e |}.

(** [e] with other answers to what the macOS branch of [get_openmp_args]
    asks: the first line of the compiler version, the two environment
    variables, the paths that exist, and the conda and Homebrew probes. *)
Definition with_openmp_probes (e : Env) (first_line : string -> result string)
    (omp_prefix conda_prefix : option string) (exists_path : string -> bool)
    (conda_openmp : bool) (brew : bool * string) : Env :=
  {| sys_platform := sys_platform e;
     platform_machine := platform_machine e;
     os_uname_machine := os_uname_machine e;
     module_dir := module_dir e;
     python_exe_dir := python_exe_dir e;
     environ_CXX := environ_CXX e;
     codecache_cpp_compiler := codecache_cpp_compiler e;
     config_debug_compile := config_debug_compile e;
     config_enable_unsafe_math_opt_flag := config_enable_unsafe_math_opt_flag e;
     config_is_fbcode := config_is_fbcode e;
     glibcxx_use_cxx11_abi := glibcxx_use_cxx11_abi e;
     chosen_isa_str := chosen_isa_str e;
     chosen_isa_build_arch_flags := chosen_isa_build_arch_flags e;
     TORCH_PATH := TORCH_PATH e;
     TORCH_LIB_PATH := TORCH_LIB_PATH e;
     sysconfig_include_path := sysconfig_include_path e;
     sysconfig_LIBDIR := sysconfig_LIBDIR e;
     compiler_version_first_line := first_line;
     getenv_OMP_PREFIX := omp_prefix;
     getenv_CONDA_PREFIX := conda_prefix;
     os_path_exists := exists_path;
     is_conda_llvm_openmp_installed := conda_openmp;
     homebrew_libomp := brew;
     config_cuda_cxx := config_cuda_cxx e;
     getenv_CUDACXX := getenv_CUDACXX e;
     getenv_CUDA_HOME := getenv_CUDA_HOME e;
     nvcc_exist := nvcc_exist e;
     get_cuda_arch := get_cuda_arch e;
     config_cutlass_dir := config_cutlass_dir e;
     _join_cuda_home := _join_cuda_home e;
     config_enable_cuda_lto := config_enable_cuda_lto e;
     config_compile_opt_level := config_compile_opt_level e;
     config_enable_debug_info := config_enable_debug_info e;
     config_enable_ptxas_info := config_enable_ptxas_info e;
     config_use_fast_math := config_use_fast_math e;
     ntpath_join := ntpath_join e |}.

(** [e] with another CUDA architecture and other CUDA toggles. *)
Definition with_cuda_config (e : Env) (arch : option string)
    (lto debug_info ptxas_info fast_math : bool) : Env :=
  {| sys_platform := sys_platform e;
     platform_machine := platform_machine e;
     os_uname_machine := os_uname_machine e;
     module_dir := module_dir e;
     python_exe_dir := python_exe_dir e;
     environ_CXX := environ_CXX e;
     codecache_cpp_compiler := codecache_cpp_compiler e;
     config_debug_compile := config_debug_compile e;
     config_enable_unsafe_math_opt_flag := config_enable_unsafe_math_opt_flag e;
     config_is_fbcode := config_is_fbcode e;
     glibcxx_use_cxx11_abi := glibcxx_use_cxx11_abi e;
     chosen_isa_str := chosen_isa_str e;
     chosen_isa_build_arch_flags := chosen_isa_build_arch_flags e;
     TORCH_PATH := TORCH_PATH e;
     TORCH_LIB_PATH := TORCH_LIB_PATH e;
     sysconfig_include_path := sysconfig_include_path e;
     sysconfig_LIBDIR := sysconfig_LIBDIR e;
     compiler_version_first_line := compiler_version_first_line e;
     getenv_OMP_PREFIX := getenv_OMP_PREFIX e;
     getenv_CONDA_PREFIX := getenv_CONDA_PREFIX e;
     os_path_exists := os_path_exists e;
     is_conda_llvm_openmp_installed := is_conda_llvm_openmp_installed e;
     homebrew_libomp := homebrew_libomp e;
     config_cuda_cxx := config_cuda_cxx e;
     getenv_CUDACXX := getenv_CUDACXX e;
     getenv_CUDA_HOME := getenv_CUDA_HOME e;
     nvcc_exist := nvcc_exist e;
     get_cuda_arch := arch;
     config_cutlass_dir := config_cutlass_dir e;
     _join_cuda_home := _join_cuda_home e;
     config_enable_cuda_lto := lto;
     config_compile_opt_level := config_compile_opt_level e;
     config_enable_debug_info := debug_info;
     config_enable_ptxas_info := ptxas_info;
     config_use_fast_math := fast_math;
     ntpath_join := ntpath_join e |}.

(** A macOS machine with Apple clang, OpenMP from conda with the Intel
    runtime, and nothing under [OMP_PREFIX]. *)
Definition darwin_conda_env : Env :=
  with_openmp_probes darwin_env (fun _ => Ok "Apple clang version 15.0.0")
    None (Some "/opt/conda")
    (fun p => String.eqb p "/opt/conda/lib/libiomp5.dylib") true (false, "").

(** A macOS machine on which the compiler cannot be run. *)
Definition darwin_broken_compiler_env : Env :=
  with_openmp_probes darwin_env (fun _ => Raise (OSError "No such file or directory"))
    None None (fun _ => false) false (false, "").




(** A host whose compiler cannot be started, one whose command line cannot be
    split, and one whose compiler prints bytes that are not UTF-8. *)
Definition no_compiler_host : Host :=
  {| shlex_split := shlex_split (sample_host 0 "");
     spawn := fun _ _ fs => (Raise (OSError "No such file or directory: g++"), fs);
     decode_utf8 := decode_utf8 (sample_host 0 "");
     mkdir_errno := fun _ _ => None;
     mkdir_progress := fun _ _ => 0%nat |}.

Definition unbalanced_quote_host : Host :=
  {| shlex_split := fun _ => Raise (ValueError "No closing quotation");
     spawn := spawn (sample_host 0 "");
     decode_utf8 := decode_utf8 (sample_host 0 "");
     mkdir_errno := fun _ _ => None;
     mkdir_progress := fun _ _ => 0%nat |}.

Definition latin1_output_host : Host :=
  {| shlex_split := shlex_split (sample_host 1 "");
     spawn := spawn (sample_host 1 "erreur");
     decode_utf8 := fun _ => Raise UnicodeDecodeError;
     mkdir_errno := fun _ _ => None;
     mkdir_progress := fun _ _ => 0%nat |}.




(** [bytes.decode] for UTF-8 with the strict error handling that is the
    default: the well-formed byte sequences are those of the Unicode
    standard (no overlong forms, no surrogates, nothing above U+10FFFF).
    [need] is the number of continuation bytes still due and [lo], [hi]
    bound the next of them.  A text is kept as its UTF-8 bytes. *)
Definition byte_between (lo hi : N) (c : ascii) : bool :=
  (lo <=? N_of_ascii c)%N && (N_of_ascii c <=? hi)%N.

Fixpoint utf8_well_formed (need : nat) (lo hi : N) (b : string) : bool :=
  match b with
  | EmptyString => Nat.eqb need 0
  | String c b' =>
      match need with
      | O =>
          if byte_between 0 127 c then utf8_well_formed 0 128 191 b'
          else if byte_between 194 223 c then utf8_well_formed 1 128 191 b'
          else if byte_between 224 224 c then utf8_well_formed 2 160 191 b'
          else if byte_between 237 237 c then utf8_well_formed 2 128 159 b'
          else if byte_between 225 239 c then utf8_well_formed 2 128 191 b'
          else if byte_between 240 240 c then utf8_well_formed 3 144 191 b'
          else if byte_between 241 243 c then utf8_well_formed 3 128 191 b'
          else if byte_between 244 244 c then utf8_well_formed 3 128 143 b'
          else false
      | S k => byte_between lo hi c && utf8_well_formed k 128 191 b'
      end
  end.

Definition utf8_decode (b : string) : result string :=
  if utf8_well_formed 0 128 191 b then Ok b else Raise UnicodeDecodeError.

(** The host of [sample_host] with that decoder. *)
Definition strict_host (returncode : Z) (captured : string) : Host :=
  {| shlex_split := shlex_split (sample_host returncode captured);
     spawn := spawn (sample_host returncode captured);
     decode_utf8 := utf8_decode;
     mkdir_errno := fun _ _ => None;
     mkdir_progress := fun _ _ => 0%nat |}.

(** What a French compiler prints in Latin-1: the word [erreur] with an
    acute accent on its first letter, the single byte 233. *)
Definition latin1_erreur : string := String "233"%char "rreur".


(* ===================================================================== *)
(** * Properties *)
(* ===================================================================== *)

(** ** Strings *)

Lemma append_nil_r (s : string) : s ++ "" = s.
Proof.
  induction s as [|c s IH]; simpl; [reflexivity | now rewrite IH].
Qed.

Lemma append_assoc (a b c : string) : (a ++ b) ++ c = a ++ (b ++ c).
Proof.
  induction a as [|x a IH]; simpl; [reflexivity | now rewrite IH].
Qed.

Lemma startswith_refl_app (p s : string) : Py.startswith p (p ++ s) = true.
Proof.
  induction p as [|c p IH]; simpl; [reflexivity |].
  now rewrite Ascii.eqb_refl, IH.
Qed.

Lemma startswith_app_l (p a b : string) :
  Py.startswith p a = true -> Py.startswith p (a ++ b) = true.
Proof.
  revert a. induction p as [|c p IH]; intros a H; [reflexivity |].
  destruct a as [|x a]; simpl in *; [discriminate |].
  apply andb_true_iff in H. destruct H as [H1 H2].
  rewrite H1. simpl. now apply IH.
Qed.

Lemma str_in_here (n s : string) : Py.startswith n s = true -> Py.str_in n s = true.
Proof.
  intro H. destruct s; simpl in *; rewrite H; reflexivity.
Qed.

Lemma str_in_app_r (n a b : string) :
  Py.str_in n b = true -> Py.str_in n (a ++ b) = true.
Proof.
  intro H. induction a as [|c a IH]; simpl; [exact H |].
  rewrite IH. apply orb_true_r.
Qed.

Lemma str_in_app_l (n a b : string) :
  Py.str_in n a = true -> Py.str_in n (a ++ b) = true.
Proof.
  induction a as [|c a IH]; simpl; intro H.
  - rewrite orb_false_r in H. destruct n; [|discriminate].
    destruct b; reflexivity.
  - apply orb_true_iff in H. destruct H as [H | H].
    + change (String c (a ++ b)) with (String c a ++ b).
      rewrite (startswith_app_l n (String c a) b H). reflexivity.
    + rewrite (IH H). apply orb_true_r.
Qed.

(** A text occurs in every text built around it. *)
Lemma str_in_middle (n a b : string) : Py.str_in n (a ++ n ++ b) = true.
Proof.
  apply str_in_app_r, str_in_here, startswith_refl_app.
Qed.

Lemma endswith_refl (p : string) : Py.endswith p p = true.
Proof.
  destruct p; simpl; [reflexivity |].
  now rewrite Ascii.eqb_refl, String.eqb_refl.
Qed.

Lemma endswith_app (p a : string) : Py.endswith p (a ++ p) = true.
Proof.
  induction a as [|c a IH]; simpl.
  - apply endswith_refl.
  - rewrite IH. apply orb_true_r.
Qed.

Lemma mem_In (x : string) (l : list string) : Py.mem x l = true <-> In x l.
Proof.
  unfold Py.mem. rewrite existsb_exists. split.
  - intros [y [Hy E]]. apply String.eqb_eq in E. now subst.
  - intro H. exists x. split; [exact H | apply String.eqb_refl].
Qed.

Lemma mem_false (x : string) (l : list string) : Py.mem x l = false <-> ~ In x l.
Proof.
  rewrite <- mem_In. destruct (Py.mem x l); split; intro H; congruence.
Qed.

(** A platform name that starts with [linux] is neither [win32] nor [darwin]. *)
Lemma linux_first_char (p : string) :
  Py.startswith "linux" p = true -> exists r, p = String "l"%char r.
Proof.
  destruct p as [|c p]; [discriminate |].
  intro H.
  change (Ascii.eqb "l"%char c && Py.startswith "inux" p = true) in H.
  apply andb_true_iff in H. destruct H as [H _].
  apply Ascii.eqb_eq in H. subst c. now exists p.
Qed.

Lemma linux_not_windows (p : string) :
  Py.startswith "linux" p = true -> String.eqb p "win32" = false.
Proof.
  intro H. destruct (linux_first_char p H) as [r ->]. reflexivity.
Qed.

Lemma linux_not_darwin (p : string) :
  Py.startswith "linux" p = true -> String.eqb p "darwin" = false.
Proof.
  intro H. destruct (linux_first_char p H) as [r ->]. reflexivity.
Qed.

Lemma linux_not_macos (p : string) :
  Py.startswith "linux" p = true -> Py.startswith "darwin" p = false.
Proof.
  intro H. destruct (linux_first_char p H) as [r ->]. reflexivity.
Qed.

(** ** [_nonduplicate_append] *)

Lemma nonduplicate_append_app (d a b : list string) :
  _nonduplicate_append d (a ++ b) = _nonduplicate_append (_nonduplicate_append d a) b.
Proof.
  unfold _nonduplicate_append. apply fold_left_app.
Qed.

Lemma append_if_absent_In (d : list string) (x y : string) :
  In y (append_if_absent d x) <-> In y d \/ y = x.
Proof.
  unfold append_if_absent. destruct (Py.mem x d) eqn:E.
  - apply mem_In in E. split; [tauto |]. intros [H | ->]; assumption.
  - rewrite in_app_iff. simpl. intuition (subst; auto).
Qed.

Lemma nonduplicate_append_In (d src : list string) (y : string) :
  In y (_nonduplicate_append d src) <-> In y d \/ In y src.
Proof.
  revert d. induction src as [|x src IH]; intro d; simpl.
  - tauto.
  - change (_nonduplicate_append d (x :: src))
      with (_nonduplicate_append (append_if_absent d x) src).
    rewrite IH, append_if_absent_In. intuition (subst; auto).
Qed.

(** Appending entries that are all present changes nothing. *)
Lemma nonduplicate_append_present (d src : list string) :
  (forall x, In x src -> In x d) -> _nonduplicate_append d src = d.
Proof.
  induction src as [|x src IH]; intro H; [reflexivity |].
  change (_nonduplicate_append d (x :: src))
    with (_nonduplicate_append (append_if_absent d x) src).
  assert (E : append_if_absent d x = d).
  { unfold append_if_absent.
    assert (Py.mem x d = true) as -> by (apply mem_In, H; now left).
    reflexivity. }
  rewrite E. apply IH. intros y Hy. apply H. now right.
Qed.

(** The destination keeps its entries at their positions. *)
Lemma nonduplicate_append_extends (d src : list string) :
  exists added, _nonduplicate_append d src = (d ++ added)%list.
Proof.
  revert d. induction src as [|x src IH]; intro d.
  - exists []. simpl. now rewrite app_nil_r.
  - change (_nonduplicate_append d (x :: src))
      with (_nonduplicate_append (append_if_absent d x) src).
    destruct (IH (append_if_absent d x)) as [t Ht]. rewrite Ht.
    unfold append_if_absent. destruct (Py.mem x d).
    + now exists t.
    + exists (x :: t). now rewrite <- app_assoc.
Qed.

Lemma append_if_absent_NoDup (d : list string) (x : string) :
  NoDup d -> NoDup (append_if_absent d x).
Proof.
  intro H. unfold append_if_absent. destruct (Py.mem x d) eqn:E; [exact H |].
  apply mem_false in E.
  apply NoDup_rev in H. rewrite <- (rev_involutive (d ++ [x])).
  apply NoDup_rev. rewrite rev_app_distr. simpl.
  constructor; [| exact H].
  intro Hin. apply E. now apply in_rev.
Qed.

(** A duplicate-free destination stays duplicate-free. *)
Lemma nonduplicate_append_NoDup (d src : list string) :
  NoDup d -> NoDup (_nonduplicate_append d src).
Proof.
  revert d. induction src as [|x src IH]; intros d H; [exact H |].
  change (_nonduplicate_append d (x :: src))
    with (_nonduplicate_append (append_if_absent d x) src).
  apply IH, append_if_absent_NoDup, H.
Qed.

Lemma filter_absorb (f g : string -> bool) (l : list string) :
  (forall y, f y = true -> g y = true) -> filter f (filter g l) = filter f l.
Proof.
  intro H. induction l as [|y l IH]; simpl; [reflexivity |].
  destruct (g y) eqn:G; simpl.
  - now rewrite IH.
  - destruct (f y) eqn:F; [| exact IH].
    apply H in F. congruence.
Qed.

Lemma filter_split (h f g : string -> bool) (l : list string) :
  (forall y, h y = g y && f y) -> filter h l = filter f (filter g l).
Proof.
  intro H. induction l as [|y l IH]; simpl; [reflexivity |].
  rewrite H. destruct (g y); simpl; [| exact IH].
  destruct (f y); now rewrite IH.
Qed.

(** What [_nonduplicate_append] leaves in the destination: the old entries in
    place, then the entries of the source that were absent, each one at the
    place of its first occurrence in the source. *)
Lemma nonduplicate_append_first_occurrences (d src : list string) :
  _nonduplicate_append d src
  = (d ++ filter (fun x => negb (Py.mem x d)) (first_occurrences src))%list.
Proof.
  revert d. induction src as [|x src IH]; intro d.
  - simpl. now rewrite app_nil_r.
  - change (_nonduplicate_append d (x :: src))
      with (_nonduplicate_append (append_if_absent d x) src).
    rewrite IH. unfold append_if_absent. simpl.
    destruct (Py.mem x d) eqn:E; simpl.
    + f_equal. symmetry. apply filter_absorb.
      intros y Hy. apply negb_true_iff. apply negb_true_iff in Hy.
      apply String.eqb_neq. intros ->. congruence.
    + rewrite <- app_assoc. simpl. do 2 f_equal.
      apply filter_split. intro y.
      unfold Py.mem. rewrite existsb_app. simpl.
      rewrite orb_false_r, negb_orb. apply andb_comm.
Qed.

(** ** The shared store *)

Lemma getattr_with_attr_same (a : attr) (l : list string) (s : Store) :
  getattr a (with_attr a l s) = l.
Proof. destruct a; reflexivity. Qed.

Lemma getattr_with_attr_other (a b : attr) (l : list string) (s : Store) :
  a <> b -> getattr b (with_attr a l s) = getattr b s.
Proof. destruct a, b; intro H; try reflexivity; congruence. Qed.

Lemma with_attr_getattr (a : attr) (s : Store) : with_attr a (getattr a s) s = s.
Proof. destruct a, s; reflexivity. Qed.

Lemma attr_eq_dec (a b : attr) : {a = b} + {a <> b}.
Proof. decide equality. Defined.

Lemma apply_step_In (s : Store) (st : step) (b : attr) (y : string) :
  In y (getattr b (apply_step s st))
  <-> In y (getattr b s) \/ (fst st = b /\ In y (snd st)).
Proof.
  unfold apply_step. destruct (attr_eq_dec (fst st) b) as [E | N].
  - rewrite E, getattr_with_attr_same, nonduplicate_append_In. tauto.
  - rewrite getattr_with_attr_other by exact N. tauto.
Qed.

Lemma apply_steps_In (l : list step) (s : Store) (b : attr) (y : string) :
  In y (getattr b (apply_steps l s))
  <-> In y (getattr b s) \/ exists st, In st l /\ fst st = b /\ In y (snd st).
Proof.
  revert s. induction l as [|st l IH]; intro s.
  - simpl. split; [tauto |]. intros [H | [st [[] _]]]. exact H.
  - change (apply_steps (st :: l) s) with (apply_steps l (apply_step s st)).
    rewrite IH, apply_step_In. split.
    + intros [[H | H] | [st' [H1 H2]]].
      * now left.
      * right. exists st. split; [now left | exact H].
      * right. exists st'. split; [now right | exact H2].
    + intros [H | [st' [[-> | H1] H2]]].
      * left. now left.
      * left. now right.
      * right. exists st'. now split.
Qed.

(** Statements whose entries are all present leave the store as it is. *)
Lemma apply_steps_present (l : list step) (s : Store) :
  (forall st, In st l -> forall x, In x (snd st) -> In x (getattr (fst st) s)) ->
  apply_steps l s = s.
Proof.
  induction l as [|st l IH]; intro H; [reflexivity |].
  change (apply_steps (st :: l) s) with (apply_steps l (apply_step s st)).
  assert (E : apply_step s st = s).
  { unfold apply_step. rewrite nonduplicate_append_present.
    - apply with_attr_getattr.
    - apply H. now left. }
  rewrite E. apply IH. intros st' Hst'. apply H. now right.
Qed.

(** Running the same statements a second time changes nothing. *)
Lemma apply_steps_idempotent (l : list step) (s : Store) :
  apply_steps l (apply_steps l s) = apply_steps l s.
Proof.
  apply apply_steps_present. intros st Hst x Hx.
  apply apply_steps_In. right. exists st. now repeat split.
Qed.

Lemma apply_steps_nodup (l : list step) (s : Store) :
  store_nodup s -> store_nodup (apply_steps l s).
Proof.
  revert s. induction l as [|st l IH]; intros s H; [exact H |].
  change (apply_steps (st :: l) s) with (apply_steps l (apply_step s st)).
  apply IH. intro b. unfold apply_step.
  destruct (attr_eq_dec (fst st) b) as [E | N].
  - rewrite E, getattr_with_attr_same. apply nonduplicate_append_NoDup, H.
  - rewrite getattr_with_attr_other by exact N. apply H.
Qed.

Lemma apply_steps_extends (l : list step) (s : Store) :
  store_extends s (apply_steps l s).
Proof.
  revert s. induction l as [|st l IH]; intros s b.
  - exists []. simpl. now rewrite app_nil_r.
  - change (apply_steps (st :: l) s) with (apply_steps l (apply_step s st)).
    destruct (IH (apply_step s st) b) as [t Ht]. rewrite Ht.
    unfold apply_step. destruct (attr_eq_dec (fst st) b) as [E | N].
    + rewrite E, getattr_with_attr_same.
      destruct (nonduplicate_append_extends (getattr b s) (snd st)) as [u Hu].
      rewrite Hu. exists (u ++ t)%list. now rewrite app_assoc.
    + rewrite getattr_with_attr_other by exact N. now exists t.
Qed.

(** ** Constructors are lists of [_nonduplicate_append] statements *)

Lemma stepwise_ret {A} (a : A) : stepwise (ret a).
Proof. exists (Ok a), []. reflexivity. Qed.

Lemma stepwise_raise {A} (e : exn) : stepwise (@raise Store A e).
Proof. exists (Raise e), []. reflexivity. Qed.

Lemma stepwise_lift {A} (r : result A) : stepwise (lift r).
Proof. exists r, []. reflexivity. Qed.

Lemma stepwise_append (a : attr) (src : list string) :
  stepwise (nonduplicate_append_to a src).
Proof. exists (Ok tt), [(a, src)]. reflexivity. Qed.

Lemma stepwise_bind {A B} (m : M Store A) (k : A -> M Store B) :
  stepwise m -> (forall a, stepwise (k a)) -> stepwise (bind m k).
Proof.
  intros [r [l Hm]] Hk. destruct r as [a | e].
  - destruct (Hk a) as [r' [l' Hk']].
    exists r', (l ++ l')%list. intro s. unfold bind.
    rewrite Hm, Hk'. unfold apply_steps. now rewrite fold_left_app.
  - exists (Raise e), l. intro s. unfold bind. now rewrite Hm.
Qed.

Ltac stepwise_body :=
  repeat first
    [ apply stepwise_ret
    | apply stepwise_raise
    | apply stepwise_lift
    | apply stepwise_append
    | apply stepwise_bind; [| intros ?]
    | match goal with
      | |- stepwise (match ?e with pair _ _ => _ end) => destruct e
      | |- stepwise (if ?b then _ else _) => destruct b
      end ].

Lemma CxxOptions_stepwise (env : Env) : stepwise (CxxOptions__init__ env).
Proof. unfold CxxOptions__init__. stepwise_body. Qed.

Lemma CxxTorchOptions_stepwise (env : Env) : stepwise (CxxTorchOptions__init__ env).
Proof.
  unfold CxxTorchOptions__init__.
  apply stepwise_bind; [apply CxxOptions_stepwise | intros self].
  stepwise_body.
Qed.

Lemma CxxTorchCudaOptions_stepwise (env : Env) :
  stepwise (CxxTorchCudaOptions__init__ env).
Proof.
  unfold CxxTorchCudaOptions__init__.
  apply stepwise_bind; [apply CxxTorchOptions_stepwise | intros self].
  stepwise_body.
Qed.

Lemma construct_stepwise (env : Env) (c : option_class) : stepwise (construct env c).
Proof.
  destruct c; simpl.
  - apply CxxOptions_stepwise.
  - apply CxxTorchOptions_stepwise.
  - apply CxxTorchCudaOptions_stepwise.
Qed.

(** ** Composition is repeatable and free of duplicates *)

Lemma initial_store_nodup : store_nodup initial_store.
Proof. intro a. destruct a; constructor. Qed.

(** C1.  Under any surroundings [env] (platform, compiler, debug, unsafe-math
    and fbcode toggles, and all the rest), constructing an options class a
    second time gives the same outcome and leaves the seven lists exactly as
    the first construction left them.  If the lists held no duplicates before
    (as at import time), they hold none afterwards; the entries they held
    keep their positions, and [_nonduplicate_append] adds each absent entry
    once, at the place of its first occurrence. *)
Theorem construct_twice_same_lists_no_duplicates
    (env : Env) (c : option_class) (s : Store) :
  store_nodup s ->
  let first := construct env c s in
  let second := construct env c (snd first) in
  fst second = fst first
  /\ snd second = snd first
  /\ store_nodup (snd first)
  /\ store_extends s (snd first)
  /\ (forall d src,
        _nonduplicate_append d src
        = (d ++ filter (fun x => negb (Py.mem x d)) (first_occurrences src))%list).
Proof.
  intros Hs first second.
  destruct (construct_stepwise env c) as [r [l H]].
  subst second first. rewrite !H. simpl.
  split; [reflexivity |].
  split; [apply apply_steps_idempotent |].
  split; [now apply apply_steps_nodup |].
  split; [apply apply_steps_extends |].
  apply nonduplicate_append_first_occurrences.
Qed.

Lemma construct_twice_same_lists_no_duplicates_witness :
  store_nodup initial_store
  /\ (let first := construct (linux_env "g++") CxxTorchCudaOptions initial_store in
      let second := construct (linux_env "g++") CxxTorchCudaOptions (snd first) in
      fst second = fst first
      /\ snd second = snd first
      /\ store_nodup (snd first)
      /\ store_extends initial_store (snd first)
      /\ (forall d src,
            _nonduplicate_append d src
            = (d ++ filter (fun x => negb (Py.mem x d)) (first_occurrences src))%list)).
Proof.
  split.
  - intro a. destruct a; constructor.
  - apply (construct_twice_same_lists_no_duplicates
             (linux_env "g++") CxxTorchCudaOptions initial_store).
    intro a. destruct a; constructor.
Defined.

(** ** Optimization flags on Linux *)

(** C5.  On Linux with a GCC compiler, with [debug_compile] and
    [enable_unsafe_math_opt_flag] both off, the optimization flags, and the
    compiler flags of a [CxxOptions] composed on the lists as they are at
    import time, contain [O3], [DNDEBUG], [ffast-math], [fno-finite-math-only]
    and [fno-unsafe-math-optimizations], and do not contain [O0]. *)
Theorem linux_gcc_release_optimization_flags (env : Env) :
  _IS_LINUX env = true ->
  is_gcc (_get_cxx_compiler env) = true ->
  config_debug_compile env = false ->
  config_enable_unsafe_math_opt_flag env = false ->
  let wanted := ["O3"; "DNDEBUG"; "ffast-math"; "fno-finite-math-only";
                 "fno-unsafe-math-optimizations"] in
  let composed := _cflags (snd (CxxOptions__init__ env initial_store)) in
  (forall f, In f wanted -> In f (optimization_cflags env))
  /\ ~ In "O0" (optimization_cflags env)
  /\ (forall f, In f wanted -> In f composed)
  /\ ~ In "O0" composed.
Proof.
  intros Hlinux _ Hdebug Hunsafe wanted composed.
  assert (Hwin : _IS_WINDOWS env = false) by (apply linux_not_windows, Hlinux).
  assert (Hmac : String.eqb (sys_platform env) "darwin" = false)
    by (apply linux_not_darwin, Hlinux).
  assert (Hopt : exists arch,
             optimization_cflags env
             = (["O3"; "DNDEBUG"; "ffast-math"; "fno-finite-math-only";
                 "fno-unsafe-math-optimizations"] ++ arch)%list
             /\ ~ In "O0" arch).
  { unfold optimization_cflags. rewrite Hwin, Hdebug, Hunsafe, Hmac. simpl.
    destruct (config_is_fbcode env).
    - exists []. split; [reflexivity | intros []].
    - destruct (String.eqb (platform_machine env) "ppc64le").
      + exists ["mcpu=native"]. split; [reflexivity |].
        intros [H | []]. discriminate.
      + exists ["march=native"]. split; [reflexivity |].
        intros [H | []]. discriminate. }
  destruct Hopt as [arch [Eopt Harch]].
  assert (Hc : forall f, In f composed <->
             In f ["shared"; "fPIC"] \/ In f (optimization_cflags env)
             \/ In f ["std=c++17"]
             \/ In f (get_linux_cpp_cflags env (_get_cxx_compiler env))).
  { intro f. subst composed. unfold CxxOptions__init__, bind, nonduplicate_append_to,
      modify, ret. simpl.
    rewrite !nonduplicate_append_In.
    unfold _get_shared_cflag, get_warning_all_flag, get_cxx_std.
    rewrite Hwin. simpl. tauto. }
  assert (Hlin : ~ In "O0" (get_linux_cpp_cflags env (_get_cxx_compiler env))).
  { unfold get_linux_cpp_cflags. rewrite Hwin. simpl.
    destruct (is_clang (_get_cxx_compiler env)); simpl;
      intuition discriminate. }
  assert (Hno : ~ In "O0" (optimization_cflags env)).
  { rewrite Eopt. intro H. apply in_app_or in H. destruct H as [H | H].
    - simpl in H. intuition discriminate.
    - now apply Harch. }
  assert (Hyes : forall f, In f wanted -> In f (optimization_cflags env)).
  { intros f Hf. rewrite Eopt. apply in_or_app. now left. }
  split; [exact Hyes |].
  split; [exact Hno |].
  split.
  - intros f Hf. apply Hc. right. left. now apply Hyes.
  - intro H. apply Hc in H. destruct H as [H | [H | [H | H]]].
    + simpl in H. intuition discriminate.
    + now apply Hno.
    + simpl in H. intuition discriminate.
    + now apply Hlin.
Qed.

Lemma linux_gcc_release_optimization_flags_witness :
  let env := linux_env "g++" in
  let wanted := ["O3"; "DNDEBUG"; "ffast-math"; "fno-finite-math-only";
                 "fno-unsafe-math-optimizations"] in
  let composed := _cflags (snd (CxxOptions__init__ env initial_store)) in
  (forall f, In f wanted -> In f (optimization_cflags env))
  /\ ~ In "O0" (optimization_cflags env)
  /\ (forall f, In f wanted -> In f composed)
  /\ ~ In "O0" composed.
Proof.
  apply (linux_gcc_release_optimization_flags (linux_env "g++")); reflexivity.
Defined.

(** ** Rendering *)

Lemma accumulate_from (fmt : string -> string) (l : list string) (acc : string) :
  fold_left (fun acc x => acc ++ fmt x) l acc = acc ++ tokens fmt l.
Proof.
  revert acc. induction l as [|x l IH]; intro acc; simpl.
  - now rewrite append_nil_r.
  - rewrite IH. unfold tokens. simpl. now rewrite append_assoc.
Qed.

(** The loops of [CxxBuilder.__init__] write the entries one after the other. *)
Lemma accumulate_tokens (fmt : string -> string) (l : list string) :
  accumulate fmt l = tokens fmt l.
Proof. unfold accumulate. now rewrite accumulate_from. Qed.

Lemma to_slashes_app (a b : string) : to_slashes (a ++ b) = to_slashes a ++ to_slashes b.
Proof.
  unfold to_slashes. induction a as [|c a IH]; simpl; [reflexivity | now rewrite IH].
Qed.

Lemma to_slashes_tokens (fmt : string -> string) (l : list string) :
  to_slashes (tokens fmt l) = tokens (fun x => to_slashes (fmt x)) l.
Proof.
  unfold tokens. induction l as [|x l IH]; simpl; [reflexivity |].
  now rewrite to_slashes_app, IH.
Qed.

Lemma to_slashes_no_backslash (s : string) :
  Py.str_in (String backslash_char EmptyString) (to_slashes s) = false.
Proof.
  unfold to_slashes. induction s as [|c s IH]; [reflexivity |].
  cbn [Py.replace_char].
  change (Py.str_in ?n (String ?x ?r))
    with (Py.startswith n (String x r) || Py.str_in n r).
  rewrite IH, orb_false_r.
  change (Py.startswith (String backslash_char EmptyString) (String ?x ?r))
    with (Ascii.eqb backslash_char x && true).
  rewrite andb_true_r.
  destruct (Ascii.eqb c backslash_char) eqn:E.
  - reflexivity.
  - now rewrite Ascii.eqb_sym.
Qed.

Lemma to_slashes_id (s : string) :
  Py.str_in (String backslash_char EmptyString) s = false -> to_slashes s = s.
Proof.
  unfold to_slashes. induction s as [|c s IH]; [reflexivity |].
  change (Py.str_in ?n (String ?x ?r))
    with (Py.startswith n (String x r) || Py.str_in n r).
  change (Py.startswith (String backslash_char EmptyString) (String ?x ?r))
    with (Ascii.eqb backslash_char x && true).
  rewrite andb_true_r. intro H. apply orb_false_iff in H. destruct H as [H1 H2].
  cbn [Py.replace_char]. rewrite Ascii.eqb_sym, H1. now rewrite (IH H2).
Qed.

(** C6 (as amended).  In the rendered command line every entry of the
    compiler flags, definitions, include directories, linker flags, library
    directories and libraries is written once, in the order of its list.  On
    a platform other than Windows each entry is written behind [-]: [-x],
    [-Dx], [-Ix], [-x], [-Lx], and a library [x] is written [-lx]; a
    pass-through argument is written as it is.  On Windows the command line
    is written first and all its backslashes are turned into slashes
    afterwards, in the entries and in the pass-through arguments alike: the
    compiler flags, definitions, include directories, linker flags and
    library directories are written behind [/] ([/x], [/D x], [/I x], [/x],
    [/LIBPATH:] and the quoted directory); a library [x] is written as the
    file name [x.lib] between double quotes, without [/]; a pass-through
    argument is written without a prefix, as it is only when it holds no
    backslash. *)
Theorem command_line_tokens_by_platform
    (env : Env) (name : string) (sources : list string)
    (BuildOption : BuildOptionsBase) (s : Store) (output_dir : option string) :
  let b := CxxBuilder__init__ env name sources BuildOption s output_dir in
  (_IS_WINDOWS env = false ->
     get_command_line env b
     = get_compiler BuildOption ++ " " ++ Py.join " " sources ++ " "
       ++ tokens (fmt_defination env) (get_definations BuildOption s) ++ " "
       ++ tokens (fmt_cflag env) (get_cflags BuildOption s) ++ " "
       ++ tokens (fmt_include_dir env) (get_include_dirs BuildOption s) ++ " "
       ++ tokens fmt_passthough_arg (get_passthough_args BuildOption s) ++ " "
       ++ tokens (fmt_ldflag env) (get_ldflags BuildOption s) ++ " "
       ++ tokens (fmt_lib env) (get_libraries BuildOption s) ++ " "
       ++ tokens (fmt_lib_dir env) (get_libraries_dirs BuildOption s)
       ++ " -o " ++ _target_file b
     /\ forall x,
          fmt_cflag env x = "-" ++ x ++ " "
          /\ fmt_defination env x = "-D" ++ x ++ " "
          /\ fmt_include_dir env x = "-I" ++ x ++ " "
          /\ fmt_ldflag env x = "-" ++ x ++ " "
          /\ fmt_lib_dir env x = "-L" ++ x ++ " "
          /\ fmt_lib env x = "-l" ++ x ++ " "
          /\ fmt_passthough_arg x = x ++ " ")
  /\ (_IS_WINDOWS env = true ->
     get_command_line env b
     = to_slashes (get_compiler BuildOption) ++ " "
       ++ tokens (fun x => to_slashes (fmt_include_dir env x))
            (get_include_dirs BuildOption s) ++ " "
       ++ tokens (fun x => to_slashes (fmt_defination env x))
            (get_definations BuildOption s) ++ " "
       ++ tokens (fun x => to_slashes (fmt_cflag env x)) (get_cflags BuildOption s) ++ " "
       ++ to_slashes (Py.join " " sources) ++ " "
       ++ tokens (fun x => to_slashes (fmt_passthough_arg x))
            (get_passthough_args BuildOption s)
       ++ " /LD /Fe" ++ to_slashes (_target_file b) ++ " /link "
       ++ tokens (fun x => to_slashes (fmt_lib_dir env x))
            (get_libraries_dirs BuildOption s) ++ " "
       ++ tokens (fun x => to_slashes (fmt_lib env x)) (get_libraries BuildOption s) ++ " "
       ++ tokens (fun x => to_slashes (fmt_ldflag env x)) (get_ldflags BuildOption s) ++ " "
     /\ (forall x,
          to_slashes (fmt_cflag env x) = "/" ++ to_slashes x ++ " "
          /\ to_slashes (fmt_defination env x) = "/D " ++ to_slashes x ++ " "
          /\ to_slashes (fmt_include_dir env x) = "/I " ++ to_slashes x ++ " "
          /\ to_slashes (fmt_ldflag env x) = "/" ++ to_slashes x ++ " "
          /\ to_slashes (fmt_lib_dir env x)
             = "/LIBPATH:" ++ dquote ++ to_slashes x ++ dquote ++ " "
          /\ to_slashes (fmt_lib env x) = dquote ++ to_slashes x ++ ".lib" ++ dquote ++ " "
          /\ to_slashes (fmt_passthough_arg x) = to_slashes x ++ " "
          /\ Py.str_in (String backslash_char EmptyString) (to_slashes x) = false
          /\ (Py.str_in (String backslash_char EmptyString) x = false ->
              to_slashes x = x))).
Proof.
  intro b. split.
  - intro Hwin. split.
    + subst b. unfold get_command_line, format_build_command, CxxBuilder__init__.
      rewrite Hwin. cbn [b_compiler _sources_args _include_dirs_args _definations_args
        _cflags_args _ldflags_args _libraries_args _libraries_dirs_args
        _passthough_parameters_args _target_file].
      rewrite !accumulate_tokens. reflexivity.
    + intro x. unfold fmt_cflag, fmt_defination, fmt_include_dir, fmt_ldflag,
        fmt_lib_dir, fmt_lib. rewrite Hwin. repeat split.
  - intro Hwin. split.
    + subst b. unfold get_command_line, format_build_command, CxxBuilder__init__.
      rewrite Hwin. cbn [b_compiler _sources_args _include_dirs_args _definations_args
        _cflags_args _ldflags_args _libraries_args _libraries_dirs_args
        _passthough_parameters_args _target_file].
      rewrite !accumulate_tokens.
      rewrite !to_slashes_app, !to_slashes_tokens. reflexivity.
    + intro x. unfold fmt_cflag, fmt_defination, fmt_include_dir, fmt_ldflag,
        fmt_lib_dir, fmt_lib, fmt_passthough_arg. rewrite Hwin.
      rewrite !to_slashes_app.
      repeat (split; [reflexivity |]).
      split; [apply to_slashes_no_backslash | apply to_slashes_id].
Qed.

Lemma command_line_tokens_by_platform_witness :
  _IS_WINDOWS (linux_env "g++") = false
  /\ _IS_WINDOWS windows_env = true
  /\ get_command_line (linux_env "g++")
       (CxxBuilder__init__ (linux_env "g++") "k" ["k.cpp"] demo_options demo_store
          (Some "/tmp/out"))
     = "g++ k.cpp -DNDEBUG  -O3  -I/opt/torch/include  -mavx2  -s  -lc10  -L/opt/torch/lib  -o /tmp/out/k.so"
  /\ get_command_line windows_env
       (CxxBuilder__init__ windows_env "k" ["k.cpp"] demo_options demo_store (Some "out"))
     = "g++ /I /opt/torch/include  /D NDEBUG  /O3  k.cpp -mavx2  /LD /Feout/k.dll /link /LIBPATH:"
       ++ dquote ++ "/opt/torch/lib" ++ dquote ++ "  "
       ++ dquote ++ "c10.lib" ++ dquote ++ "  /s  "
  /\ fmt_passthough_arg "-Wa,-adhln=obj\k.lst" = "-Wa,-adhln=obj\k.lst "
  /\ to_slashes (fmt_passthough_arg "-Wa,-adhln=obj\k.lst") = "-Wa,-adhln=obj/k.lst ".
Proof.
  split; [reflexivity |].
  split; [reflexivity |].
  split; [| split; [| split]].
  - exact (proj1 (proj1 (command_line_tokens_by_platform (linux_env "g++") "k" ["k.cpp"]
                           demo_options demo_store (Some "/tmp/out")) eq_refl)).
  - exact (proj1 (proj2 (command_line_tokens_by_platform windows_env "k" ["k.cpp"]
                           demo_options demo_store (Some "out")) eq_refl)).
  - reflexivity.
  - destruct (proj2 (command_line_tokens_by_platform windows_env "k" ["k.cpp"]
                       demo_options demo_store (Some "out")) eq_refl) as [_ H].
    destruct (H "-Wa,-adhln=obj\k.lst") as [_ [_ [_ [_ [_ [_ [Hpass _]]]]]]].
    exact Hpass.
Defined.

(** C6, the statement as given fails: on Windows the token of a library does
    not start with [/].  With the single library [c10] the libraries text of
    the builder is the quoted file name followed by a blank. *)
Lemma windows_library_token_without_slash :
  let b := CxxBuilder__init__ windows_env "k" ["k.cpp"] demo_options demo_store
             (Some "out") in
  get_libraries demo_options demo_store = ["c10"]
  /\ _libraries_args b = dquote ++ "c10.lib" ++ dquote ++ " "
  /\ Py.startswith "/" (_libraries_args b) = false
  /\ ~ (forall x, In x (get_libraries demo_options demo_store) ->
          Py.startswith "/" (fmt_lib windows_env x) = true).
Proof.
  repeat split.
  intro H. specialize (H "c10" (or_introl eq_refl)). discriminate H.
Qed.

(** The command line on a platform other than Windows: compiler, sources, the
    seven argument texts, and the target behind [-o]. *)
Lemma unix_command_line (env : Env) (b : CxxBuilder) :
  _IS_WINDOWS env = false ->
  get_command_line env b
  = (b_compiler b ++ " " ++ _sources_args b ++ " ")
    ++ (_definations_args b ++ " " ++ _cflags_args b ++ " " ++ _include_dirs_args b
        ++ " " ++ _passthough_parameters_args b ++ " " ++ _ldflags_args b ++ " "
        ++ _libraries_args b ++ " " ++ _libraries_dirs_args b ++ " ")
    ++ ("-o " ++ _target_file b).
Proof.
  intro Hwin. unfold get_command_line, format_build_command. rewrite Hwin.
  rewrite !append_assoc. reflexivity.
Qed.

(** [os.path.join(d, f)] on a platform other than Windows, for a file name
    that does not start with a slash. *)
Lemma posix_target (env : Env) (d f : string) :
  _IS_WINDOWS env = false ->
  Py.startswith "/" f = false ->
  os_path_join env d [f]
  = if String.eqb d "" || Py.endswith "/" d then d ++ f else d ++ "/" ++ f.
Proof.
  intros Hwin Hf. unfold os_path_join. rewrite Hwin.
  unfold Py.posixpath_join. simpl. unfold Py.posix_join2. now rewrite Hf.
Qed.

(** C7.  On Linux, for every options instance and every state of the lists,
    the command line for the sources [a.cpp], [b.cpp] and the name [libfoo]
    starts with the compiler followed by the two source paths, joined by a
    blank and in order, ahead of every argument group, and ends with [-o]
    and the path of [libfoo.so] in the output directory: the directory, a
    slash, and [libfoo.so] (the slash is left out when the directory is the
    empty string or already ends with one). *)
Theorem linux_command_line_sources_and_target
    (env : Env) (BuildOption : BuildOptionsBase) (s : Store) (output_dir : option string) :
  _IS_LINUX env = true ->
  let b := CxxBuilder__init__ env "libfoo" ["a.cpp"; "b.cpp"] BuildOption s output_dir in
  let cmd := get_command_line env b in
  let dir := match output_dir with Some d => d | None => module_dir env end in
  let target :=
    if String.eqb dir "" || Py.endswith "/" dir
    then dir ++ "libfoo.so" else dir ++ "/libfoo.so" in
  get_target_file_path b = target
  /\ (exists groups,
        cmd = (get_compiler BuildOption ++ " a.cpp b.cpp ") ++ groups ++ ("-o " ++ target))
  /\ Py.startswith (get_compiler BuildOption ++ " a.cpp b.cpp ") cmd = true
  /\ Py.endswith ("-o " ++ target) cmd = true
  /\ Py.str_in "a.cpp" cmd = true
  /\ Py.str_in "b.cpp" cmd = true
  /\ (dir <> "" -> Py.endswith "/" dir = false ->
      Py.endswith ("-o " ++ dir ++ "/libfoo.so") cmd = true).
Proof.
  intros Hlinux b cmd dir target.
  assert (Hwin : _IS_WINDOWS env = false) by (apply linux_not_windows, Hlinux).
  assert (Ht : _target_file b = target).
  { subst b target dir. unfold CxxBuilder__init__. cbn [_target_file].
    unfold get_shared_lib_ext. rewrite Hwin.
    change ("libfoo" ++ ".so") with "libfoo.so".
    rewrite posix_target by (exact Hwin || reflexivity). reflexivity. }
  assert (E : exists groups,
             cmd = (get_compiler BuildOption ++ " a.cpp b.cpp ") ++ groups
                   ++ ("-o " ++ target)).
  { eexists. subst cmd. rewrite (unix_command_line env b Hwin), Ht. reflexivity. }
  destruct E as [groups E].
  assert (Hend : Py.endswith ("-o " ++ target) cmd = true).
  { rewrite E, <- append_assoc. apply endswith_app. }
  split; [exact Ht |].
  split; [now exists groups |].
  split; [rewrite E; apply startswith_refl_app |].
  split; [exact Hend |].
  split; [rewrite E; apply str_in_app_l, str_in_app_r; reflexivity |].
  split; [rewrite E; apply str_in_app_l, str_in_app_r; reflexivity |].
  intros Hne Hslash. subst target.
  apply String.eqb_neq in Hne. rewrite Hne, Hslash in Hend. exact Hend.
Qed.

Lemma linux_command_line_sources_and_target_witness :
  let env := linux_env "g++" in
  let cmd := get_command_line env
               (CxxBuilder__init__ env "libfoo" ["a.cpp"; "b.cpp"] demo_options
                  demo_store (Some "/tmp/out")) in
  _IS_LINUX env = true
  /\ Py.startswith "g++ a.cpp b.cpp " cmd = true
  /\ Py.endswith "-o /tmp/out/libfoo.so" cmd = true
  /\ Py.str_in "a.cpp" cmd = true
  /\ Py.str_in "b.cpp" cmd = true.
Proof.
  intros env cmd.
  destruct (linux_command_line_sources_and_target env demo_options demo_store
              (Some "/tmp/out") eq_refl) as [_ [_ [H1 [H2 [H3 [H4 _]]]]]].
  split; [reflexivity |].
  split; [exact H1 |].
  split; [exact H2 |].
  split; [exact H3 | exact H4].
Defined.

(** ** The command runner *)

Lemma run_command_line_success
    (env : Env) (host : Host) (cmd_line : string) (cwd : option string) (fs fs' : FS)
    (cmd : list string) (captured : string) :
  shlex_split host cmd_line = Ok cmd ->
  spawn host cmd cwd fs = (Ok (0%Z, captured), fs') ->
  run_command_line env host cmd_line cwd fs = (Ok (PyBytes captured), fs').
Proof.
  intros Hsplit Hspawn. unfold run_command_line, bind, lift.
  rewrite Hsplit, Hspawn. reflexivity.
Qed.

Lemma run_command_line_failure
    (env : Env) (host : Host) (cmd_line : string) (cwd : option string) (fs fs' : FS)
    (cmd : list string) (returncode : Z) (captured output : string) :
  shlex_split host cmd_line = Ok cmd ->
  spawn host cmd cwd fs = (Ok (returncode, captured), fs') ->
  returncode <> 0%Z ->
  decode_utf8 host captured = Ok output ->
  run_command_line env host cmd_line cwd fs
  = (Raise (CppCompileError cmd (compile_error_output env output)), fs').
Proof.
  intros Hsplit Hspawn Hrc Hdec. unfold run_command_line, bind, lift.
  rewrite Hsplit, Hspawn.
  apply Z.eqb_neq in Hrc. rewrite Hrc, Hdec. reflexivity.
Qed.

Lemma instruction_contents :
  Py.str_in "OMP_PREFIX" instruction = true
  /\ Py.str_in "(1) " instruction = true
  /\ Py.str_in "(2) " instruction = true
  /\ Py.str_in "(3) " instruction = true
  /\ Py.str_in "(4) " instruction = true.
Proof. vm_compute. repeat split. Qed.

(** The failure that is reported.  When the child process returns a non-zero
    code and its captured output decodes as UTF-8, [run_command_line] raises
    [CppCompileError]
    with the command, as split into arguments, and a text that starts with
    the whole captured output.  With [sys.platform] equal to [darwin] and an
    output that contains [libomp] or ['omp.h' file not found], the text is
    the output followed by the remediation text, which contains [OMP_PREFIX]
    and the four numbered suggestions; otherwise the text is the output
    alone. *)
Theorem failing_subprocess_raises_compile_error
    (env : Env) (host : Host) (cmd_line : string) (cwd : option string) (fs fs' : FS)
    (cmd : list string) (returncode : Z) (captured output : string) :
  shlex_split host cmd_line = Ok cmd ->
  spawn host cmd cwd fs = (Ok (returncode, captured), fs') ->
  returncode <> 0%Z ->
  decode_utf8 host captured = Ok output ->
  exists reported,
    run_command_line env host cmd_line cwd fs = (Raise (CppCompileError cmd reported), fs')
    /\ Py.startswith output reported = true
    /\ (sys_platform env = "darwin" ->
        Py.str_in "libomp" output = true
        \/ Py.str_in "'omp.h' file not found" output = true ->
        reported = output ++ instruction
        /\ Py.str_in "OMP_PREFIX" reported = true
        /\ Py.str_in "(1) " reported = true
        /\ Py.str_in "(2) " reported = true
        /\ Py.str_in "(3) " reported = true
        /\ Py.str_in "(4) " reported = true)
    /\ (sys_platform env <> "darwin"
        \/ (Py.str_in "libomp" output = false
            /\ Py.str_in "'omp.h' file not found" output = false) ->
        reported = output).
Proof.
  intros Hsplit Hspawn Hrc Hdec.
  exists (compile_error_output env output).
  split; [now apply run_command_line_failure with (returncode := returncode)
                                                  (captured := captured) |].
  unfold compile_error_output.
  split; [| split].
  - destruct (_ && _).
    + apply startswith_refl_app.
    + rewrite <- (append_nil_r output) at 2. apply startswith_refl_app.
  - intros Hmac Hout.
    assert (E : Py.str_in "'omp.h' file not found" output
                || Py.str_in "libomp" output = true).
    { apply orb_true_iff. tauto. }
    rewrite E, Hmac. simpl.
    destruct instruction_contents as [H0 [H1 [H2 [H3 H4]]]].
    repeat split; now apply str_in_app_r.
  - intros [Hmac | [H1 H2]].
    + apply String.eqb_neq in Hmac. rewrite Hmac, andb_false_r. reflexivity.
    + rewrite H1, H2. reflexivity.
Qed.

Lemma failing_subprocess_raises_compile_error_witness :
  let host := sample_host 1 "ld: library not found for -lomp (libomp)" in
  exists reported,
    run_command_line darwin_env host "clang++ k.cpp" None []
    = (Raise (CppCompileError ["clang++"; "k.cpp"] reported), [])
    /\ Py.startswith "ld: library not found for -lomp (libomp)" reported = true
    /\ Py.str_in "OMP_PREFIX" reported = true.
Proof.
  intro host.
  destruct (failing_subprocess_raises_compile_error darwin_env host "clang++ k.cpp"
              None [] [] ["clang++"; "k.cpp"] 1
              "ld: library not found for -lomp (libomp)"
              "ld: library not found for -lomp (libomp)"
              eq_refl eq_refl ltac:(discriminate) eq_refl)
    as [reported [Hrun [Hpre [Hmac _]]]].
  exists reported.
  split; [exact Hrun |].
  split; [exact Hpre |].
  destruct (Hmac eq_refl (or_introl eq_refl)) as [_ [H _]]. exact H.
Defined.

(** C8, where the code departs from it.  The handler of the failed child
    decodes the captured output as UTF-8 before it builds the exception.
    When the child returns a non-zero code and its output is not UTF-8, that
    decoding raises inside the handler: what leaves [run_command_line] is the
    [UnicodeDecodeError], not a [CppCompileError], and neither the command
    nor the captured output is reported. *)
Theorem undecodable_output_hides_compile_error
    (env : Env) (host : Host) (cmd_line : string) (cwd : option string) (fs fs' : FS)
    (cmd : list string) (returncode : Z) (captured : string) :
  shlex_split host cmd_line = Ok cmd ->
  spawn host cmd cwd fs = (Ok (returncode, captured), fs') ->
  returncode <> 0%Z ->
  decode_utf8 host captured = Raise UnicodeDecodeError ->
  run_command_line env host cmd_line cwd fs = (Raise UnicodeDecodeError, fs')
  /\ forall c reported,
       fst (run_command_line env host cmd_line cwd fs) <> Raise (CppCompileError c reported).
Proof.
  intros Hsplit Hspawn Hrc Hdec.
  assert (E : run_command_line env host cmd_line cwd fs = (Raise UnicodeDecodeError, fs')).
  { unfold run_command_line, bind, lift. rewrite Hsplit, Hspawn.
    apply Z.eqb_neq in Hrc. now rewrite Hrc, Hdec. }
  split; [exact E |].
  intros c reported. rewrite E. discriminate.
Qed.

Lemma undecodable_output_hides_compile_error_witness :
  utf8_decode latin1_erreur = Raise UnicodeDecodeError
  /\ utf8_decode "k.cpp:1:1: error: expected declaration"
     = Ok "k.cpp:1:1: error: expected declaration"
  /\ run_command_line (linux_env "g++") (strict_host 1 latin1_erreur) "g++ k.cpp" None []
     = (Raise UnicodeDecodeError, []).
Proof.
  split; [reflexivity |].
  split; [reflexivity |].
  exact (proj1 (undecodable_output_hides_compile_error (linux_env "g++")
                  (strict_host 1 latin1_erreur) "g++ k.cpp" None [] []
                  ["g++"; "k.cpp"] 1 latin1_erreur
                  eq_refl eq_refl ltac:(discriminate) eq_refl)).
Defined.

Lemma create_dir_succeeds (host : Host) (p : string) (fs : FS) :
  (forall q f, mkdir_errno host q f = None) ->
  _create_if_dir_not_exist host p fs
  = (Ok tt, snd (_create_if_dir_not_exist host p fs)).
Proof.
  intro Hmk. unfold _create_if_dir_not_exist.
  destruct (fs_exists fs p); simpl; [reflexivity |].
  rewrite Hmk. reflexivity.
Qed.


(** [_remove_dir] leaves nothing at the path. *)
Lemma remove_dir_gone (env : Env) (p : string) (fs : FS) :
  fs_exists (snd (_remove_dir env p fs)) p = false.
Proof.
  unfold _remove_dir. destruct (fs_exists fs p) eqn:E; simpl; [| exact E].
  unfold fs_exists. apply andb_false_iff. right.
  apply mem_false. intro H. apply filter_In in H. destruct H as [_ H].
  unfold in_tree in H. rewrite String.eqb_refl in H. discriminate H.
Qed.

(** The file system [build] hands to the compiler: the output directory and
    the scratch directory have been created. *)
Lemma build_runs_command
    (env : Env) (host : Host) (self : CxxBuilder) (fs : FS) :
  (forall q f, mkdir_errno host q f = None) ->
  let prepared :=
    snd (_create_if_dir_not_exist host (build_tmp_dir env self)
           (snd (_create_if_dir_not_exist host (_output_dir self) fs))) in
  build env host self fs
  = match run_command_line env host (get_command_line env self)
            (Some (build_tmp_dir env self)) prepared with
    | (Ok status, fs1) =>
        (Ok (status, _target_file self),
         snd (_remove_dir env (build_tmp_dir env self) fs1))
    | (Raise e, fs1) => (Raise e, fs1)
    end.
Proof.
  intros Hmk prepared. unfold build, bind.
  rewrite (create_dir_succeeds host _ fs Hmk).
  rewrite (create_dir_succeeds host (build_tmp_dir env self) _ Hmk).
  fold prepared.
  destruct (run_command_line env host (get_command_line env self)
              (Some (build_tmp_dir env self)) prepared) as [[status | e] fs1];
    [| reflexivity].
  unfold _remove_dir, ret.
  destruct (fs_exists fs1 (build_tmp_dir env self)); reflexivity.
Qed.

(** When the compiler succeeds, the scratch directory is gone after [build]:
    [os.path.exists] is false for it. *)
Lemma build_success_removes_scratch_directory
    (env : Env) (host : Host) (self : CxxBuilder) (fs fs1 : FS)
    (cmd : list string) (captured : string) :
  (forall q f, mkdir_errno host q f = None) ->
  shlex_split host (get_command_line env self) = Ok cmd ->
  spawn host cmd (Some (build_tmp_dir env self))
    (snd (_create_if_dir_not_exist host (build_tmp_dir env self)
            (snd (_create_if_dir_not_exist host (_output_dir self) fs))))
  = (Ok (0%Z, captured), fs1) ->
  fs_exists (snd (build env host self fs)) (build_tmp_dir env self) = false.
Proof.
  intros Hmk Hsplit Hspawn.
  rewrite (build_runs_command env host self fs Hmk).
  rewrite (run_command_line_success env host _ _ _ fs1 cmd captured Hsplit Hspawn).
  apply remove_dir_gone.
Qed.

(** C2, what the code does when the compiler fails.  [build] creates the
    scratch directory, the child returns a non-zero code,
    [run_command_line] raises [CppCompileError], and the exception leaves
    [build] before [_remove_dir] is reached: the scratch directory, which the
    child left in place, still exists. *)
Theorem build_failure_leaves_scratch_directory
    (env : Env) (host : Host) (self : CxxBuilder) (fs fs1 : FS)
    (cmd : list string) (returncode : Z) (captured output : string) :
  (forall q f, mkdir_errno host q f = None) ->
  shlex_split host (get_command_line env self) = Ok cmd ->
  spawn host cmd (Some (build_tmp_dir env self))
    (snd (_create_if_dir_not_exist host (build_tmp_dir env self)
            (snd (_create_if_dir_not_exist host (_output_dir self) fs))))
  = (Ok (returncode, captured), fs1) ->
  returncode <> 0%Z ->
  decode_utf8 host captured = Ok output ->
  Py.mem (build_tmp_dir env self) fs1 = true ->
  build env host self fs
  = (Raise (CppCompileError cmd (compile_error_output env output)), fs1)
  /\ Py.mem (build_tmp_dir env self) (snd (build env host self fs)) = true.
Proof.
  intros Hmk Hsplit Hspawn Hrc Hdec Hkept.
  rewrite (build_runs_command env host self fs Hmk).
  rewrite (run_command_line_failure env host _ _ _ fs1 cmd returncode captured output
             Hsplit Hspawn Hrc Hdec).
  split; [reflexivity | exact Hkept].
Qed.

Lemma build_failure_leaves_scratch_directory_witness :
  let env := linux_env "g++" in
  let host := sample_host 1 "k.cpp:1:1: error: expected declaration" in
  let self := CxxBuilder__init__ env "k" ["k.cpp"] demo_options demo_store
                (Some "/tmp/out") in
  build_tmp_dir env self = "/tmp/out/k_CxxBuild"
  /\ (exists e, fst (build env host self []) = Raise e)
  /\ Py.mem "/tmp/out/k_CxxBuild" (snd (build env host self [])) = true.
Proof.
  intros env host self.
  destruct (build_failure_leaves_scratch_directory env host self []
              ["/tmp"; "/tmp/out"; "/tmp/out/k_CxxBuild"; "/tmp/out/k_CxxBuild/k.o"]
              (words_from "" (get_command_line env self)) 1
              "k.cpp:1:1: error: expected declaration"
              "k.cpp:1:1: error: expected declaration"
              (fun _ _ => eq_refl) eq_refl eq_refl ltac:(discriminate) eq_refl eq_refl)
    as [Hrun Hkept].
  split; [reflexivity |].
  split; [| exact Hkept].
  eexists. rewrite Hrun. reflexivity.
Defined.

(** C3, what the code returns when the compiler succeeds.  The first
    component of the pair is what [subprocess.check_output] returned, the
    bytes captured from the child, and not its return code; the second is the
    target file. *)
Theorem build_success_returns_captured_bytes
    (env : Env) (host : Host) (self : CxxBuilder) (fs fs1 : FS)
    (cmd : list string) (captured : string) :
  (forall q f, mkdir_errno host q f = None) ->
  shlex_split host (get_command_line env self) = Ok cmd ->
  spawn host cmd (Some (build_tmp_dir env self))
    (snd (_create_if_dir_not_exist host (build_tmp_dir env self)
            (snd (_create_if_dir_not_exist host (_output_dir self) fs))))
  = (Ok (0%Z, captured), fs1) ->
  fst (build env host self fs) = Ok (PyBytes captured, get_target_file_path self)
  /\ PyBytes captured <> PyInt 0.
Proof.
  intros Hmk Hsplit Hspawn.
  rewrite (build_runs_command env host self fs Hmk).
  rewrite (run_command_line_success env host _ _ _ fs1 cmd captured Hsplit Hspawn).
  split; [reflexivity | discriminate].
Qed.

Lemma build_success_returns_captured_bytes_witness :
  let env := linux_env "g++" in
  let host := sample_host 0 "k.cpp:3:7: warning: unused variable" in
  let self := CxxBuilder__init__ env "k" ["k.cpp"] demo_options demo_store
                (Some "/tmp/out") in
  fst (build env host self [])
  = Ok (PyBytes "k.cpp:3:7: warning: unused variable", "/tmp/out/k.so").
Proof.
  intros env host self.
  exact (proj1 (build_success_returns_captured_bytes env host self []
                  ["/tmp"; "/tmp/out"; "/tmp/out/k_CxxBuild"; "/tmp/out/k_CxxBuild/k.o"]
                  (words_from "" (get_command_line env self))
                  "k.cpp:3:7: warning: unused variable"
                  (fun _ _ => eq_refl) eq_refl eq_refl)).
Defined.

(** ** Instances share their lists *)

Lemma bind_ok {S A B} (m : M S A) (k : A -> M S B) (s s' : S) (a : A) :
  m s = (Ok a, s') -> bind m k s = k a s'.
Proof. intro H. unfold bind. now rewrite H. Qed.

Lemma stepwise_monotone {A} (m : M Store A) :
  stepwise m ->
  forall s b y, In y (getattr b s) -> In y (getattr b (snd (m s))).
Proof.
  intros [r [l H]] s b y Hy. rewrite H. simpl.
  apply apply_steps_In. now left.
Qed.

(** An entry appended by one statement is in the list at the end of the
    statements that follow. *)
Lemma bind_append_In {A} (a : attr) (src : list string) (k : unit -> M Store A)
    (s : Store) (y : string) :
  In y src -> stepwise (k tt) ->
  In y (getattr a (snd (bind (nonduplicate_append_to a src) k s))).
Proof.
  intros Hy Hk. unfold bind, nonduplicate_append_to, modify.
  apply stepwise_monotone; [exact Hk |].
  rewrite getattr_with_attr_same. apply nonduplicate_append_In. now right.
Qed.

Lemma CxxOptions_returns (env : Env) (s : Store) :
  CxxOptions__init__ env s
  = (Ok {| _compiler := _get_cxx_compiler env |}, snd (CxxOptions__init__ env s)).
Proof. reflexivity. Qed.

(** C4, what the code does.  A [CxxOptions] instance is constructed on the
    lists as they are at import time: its definitions are then empty.
    Constructing a [CxxTorchOptions] instance afterwards changes what the
    first instance returns from [get_definations]: the list now holds the
    macro [TORCH_INDUCTOR_CPP_WRAPPER].  Both instances read the same list
    object; no copy is made. *)
Theorem derived_construction_changes_parent_lists (env : Env) :
  let after_parent := CxxOptions__init__ env initial_store in
  let after_derived := CxxTorchOptions__init__ env (snd after_parent) in
  exists parent,
    fst after_parent = Ok parent
    /\ get_definations parent (snd after_parent) = []
    /\ In "TORCH_INDUCTOR_CPP_WRAPPER" (get_definations parent (snd after_derived)).
Proof.
  intros after_parent after_derived.
  exists {| _compiler := _get_cxx_compiler env |}.
  split; [reflexivity |].
  split; [reflexivity |].
  subst after_derived. unfold get_definations, CxxTorchOptions__init__.
  rewrite (bind_ok _ _ _ _ _ (CxxOptions_returns env (snd after_parent))).
  change (_definations ?x) with (getattr self_definations x).
  apply bind_append_In; [now left |].
  stepwise_body.
Qed.

(** The same on a Linux machine with g++, for the libraries: empty for the
    parent alone, four entries once the derived instance exists. *)
Example parent_libraries_before_and_after :
  let env := linux_env "g++" in
  let after_parent := CxxOptions__init__ env initial_store in
  let after_derived := CxxTorchOptions__init__ env (snd after_parent) in
  let parent := {| _compiler := "g++" |} in
  fst after_parent = Ok parent
  /\ get_libraries parent (snd after_parent) = []
  /\ get_libraries parent (snd after_derived) = ["torch"; "torch_cpu"; "c10"; "gomp"].
Proof. repeat split. Qed.

(** ** OpenMP on Linux *)

(** C9, what the code does.  On Linux outside fbcode both branches of the
    test on the compiler family return the flag [fopenmp] and the library
    [gomp]: the library does not depend on the compiler. *)
Theorem linux_openmp_library_ignores_compiler_family (env : Env) (cpp_compiler : string) :
  _IS_LINUX env = true ->
  config_is_fbcode env = false ->
  get_openmp_args env cpp_compiler = Ok (["fopenmp"], [], [], [], ["gomp"]).
Proof.
  intros Hlinux Hfb. unfold get_openmp_args, _IS_MACOS.
  rewrite (linux_not_macos _ Hlinux).
  fold (_IS_LINUX env). unfold _IS_WINDOWS.
  rewrite (linux_not_windows _ Hlinux), Hfb.
  destruct (is_clang cpp_compiler); reflexivity.
Qed.

Lemma linux_openmp_library_ignores_compiler_family_witness :
  is_clang "clang++" = true
  /\ is_clang "g++" = false
  /\ get_openmp_args (linux_env "clang++") "clang++" = Ok (["fopenmp"], [], [], [], ["gomp"])
  /\ get_openmp_args (linux_env "g++") "g++" = Ok (["fopenmp"], [], [], [], ["gomp"]).
Proof.
  split; [reflexivity |].
  split; [reflexivity |].
  split.
  - exact (linux_openmp_library_ignores_compiler_family (linux_env "clang++") "clang++"
             eq_refl eq_refl).
  - exact (linux_openmp_library_ignores_compiler_family (linux_env "g++") "g++"
             eq_refl eq_refl).
Defined.

(** ** The CUDA compiler *)














(* ===================================================================== *)
(** * Further properties of the code *)
(* ===================================================================== *)

(** ** More on strings and on [_nonduplicate_append] *)

Lemma startswith_split (p s : string) :
  Py.startswith p s = true -> exists rest, s = p ++ rest.
Proof.
  revert s. induction p as [|c p IH]; intros s H.
  - now exists s.
  - destruct s as [|x s]; [discriminate |].
    change (Ascii.eqb c x && Py.startswith p s = true) in H.
    apply andb_true_iff in H. destruct H as [H1 H2].
    apply Ascii.eqb_eq in H1. subst x.
    destruct (IH s H2) as [rest ->]. now exists rest.
Qed.

(** [needle in hay] holds exactly when [hay] is built around [needle]. *)
Lemma str_in_split (n h : string) :
  Py.str_in n h = true -> exists a b, h = a ++ n ++ b.
Proof.
  induction h as [|c h IH]; intro H.
  - simpl in H. rewrite orb_false_r in H.
    destruct (startswith_split _ _ H) as [rest E]. now exists "", rest.
  - change (Py.startswith n (String c h) || Py.str_in n h = true) in H.
    apply orb_true_iff in H. destruct H as [H | H].
    + destruct (startswith_split _ _ H) as [rest E]. now exists "", rest.
    + destruct (IH H) as [a [b ->]]. now exists (String c a), b.
Qed.

Lemma nonduplicate_append_length (d src : list string) :
  (length (_nonduplicate_append d src) <= length d + length src)%nat.
Proof.
  revert d. induction src as [|x src IH]; intro d; simpl; [lia |].
  change (fold_left append_if_absent src (append_if_absent d x))
    with (_nonduplicate_append (append_if_absent d x) src).
  specialize (IH (append_if_absent d x)).
  unfold append_if_absent in *. destruct (Py.mem x d).
  - lia.
  - rewrite length_app in IH. simpl in IH. lia.
Qed.

(** X1.  [_nonduplicate_append] makes the destination the union of both
    lists: an entry is in it afterwards exactly when it was in the
    destination or is in the source.  Calling it again with the same source
    changes nothing, the destination grows by at most the length of the
    source, and a source appended to an empty destination comes out without
    duplicates, whatever repetitions it has. *)
Theorem nonduplicate_append_union_and_repeat (d src : list string) :
  (forall x, In x (_nonduplicate_append d src) <-> In x d \/ In x src)
  /\ _nonduplicate_append (_nonduplicate_append d src) src = _nonduplicate_append d src
  /\ (length d <= length (_nonduplicate_append d src) <= length d + length src)%nat
  /\ NoDup (_nonduplicate_append [] src).
Proof.
  split; [intro x; apply nonduplicate_append_In |].
  split.
  { apply nonduplicate_append_present. intros x Hx.
    apply nonduplicate_append_In. now right. }
  split.
  { split; [| apply nonduplicate_append_length].
    destruct (nonduplicate_append_extends d src) as [t ->].
    rewrite length_app. lia. }
  apply nonduplicate_append_NoDup. constructor.
Qed.

(** ** Compiler families *)

(** X2.  The test [is_gcc] looks for [gcc] or [g++] anywhere in the compiler
    name, so every name that contains [clang++] passes it as well: such a
    compiler is classified as Clang and as GCC at once.  The second
    alternative of the pattern of [is_clang] never decides: [is_clang] is
    true exactly for the names that contain [clang]. *)
Theorem clangxx_is_classified_as_gcc_too (cpp_compiler : string) :
  (Py.str_in "clang++" cpp_compiler = true ->
   is_clang cpp_compiler = true /\ is_gcc cpp_compiler = true)
  /\ is_clang cpp_compiler = Py.str_in "clang" cpp_compiler.
Proof.
  assert (H : Py.str_in "clang++" cpp_compiler = true ->
              Py.str_in "clang" cpp_compiler = true
              /\ Py.str_in "g++" cpp_compiler = true).
  { intro Hc. destruct (str_in_split _ _ Hc) as [a [b ->]]. split.
    - change ("clang++" ++ b) with ("clang" ++ ("++" ++ b)). apply str_in_middle.
    - change (a ++ "clang++" ++ b) with (a ++ "clan" ++ ("g++" ++ b)).
      rewrite <- append_assoc. apply str_in_middle. }
  split.
  - intro Hc. destruct (H Hc) as [H1 H2]. unfold is_clang, is_gcc.
    rewrite H1, H2. split; [reflexivity | apply orb_true_r].
  - unfold is_clang. destruct (Py.str_in "clang" cpp_compiler) eqn:E; [reflexivity |].
    destruct (Py.str_in "clang++" cpp_compiler) eqn:E2; [| reflexivity].
    destruct (H eq_refl) as [H1 _]. congruence.
Qed.

Lemma clangxx_is_classified_as_gcc_too_witness :
  Py.str_in "clang++" "/usr/bin/clang++-17" = true
  /\ is_clang "/usr/bin/clang++-17" = true
  /\ is_gcc "/usr/bin/clang++-17" = true.
Proof.
  split; [reflexivity |].
  exact (proj1 (clangxx_is_classified_as_gcc_too "/usr/bin/clang++-17") eq_refl).
Defined.

(** ** Optimization flags under every setting *)

Ltac decide_string_list :=
  repeat match goal with
         | H : _ = _ |- _ => discriminate H
         | |- NoDup _ => constructor
         | |- ~ In _ _ => simpl; intuition discriminate
         | |- In _ _ => simpl; tauto
         | |- _ /\ _ => split
         | |- _ <-> _ => split; intro
         | H : In _ _ |- _ => simpl in H; intuition discriminate
         | |- _ = _ => reflexivity || congruence
         end.

(** X3.  The list [optimization_cflags] returns never holds a flag twice.
    On Windows it is [O2] alone, whatever the toggles are.  Elsewhere it
    always holds [ffast-math] and [fno-finite-math-only]; it holds [O0] and
    [g] exactly when [debug_compile] is on, and [O3] and [DNDEBUG] exactly
    when it is off; it holds [fno-unsafe-math-optimizations] exactly when
    [enable_unsafe_math_opt_flag] is off. *)
Theorem optimization_cflags_under_every_setting (env : Env) :
  let flags := optimization_cflags env in
  NoDup flags
  /\ (if _IS_WINDOWS env then flags = ["O2"]
      else
        In "ffast-math" flags
        /\ In "fno-finite-math-only" flags
        /\ (In "O0" flags <-> config_debug_compile env = true)
        /\ (In "g" flags <-> config_debug_compile env = true)
        /\ (In "O3" flags <-> config_debug_compile env = false)
        /\ (In "DNDEBUG" flags <-> config_debug_compile env = false)
        /\ (In "fno-unsafe-math-optimizations" flags
            <-> config_enable_unsafe_math_opt_flag env = false)).
Proof.
  intro flags. subst flags. unfold optimization_cflags.
  destruct (_IS_WINDOWS env), (config_debug_compile env),
    (config_enable_unsafe_math_opt_flag env), (config_is_fbcode env),
    (String.eqb (sys_platform env) "darwin"),
    (String.eqb (platform_machine env) "ppc64le");
    cbv beta iota delta [app negb]; decide_string_list.
Qed.

(** ** The fbcode profile *)

(** X4.  With [config.is_fbcode()] on, outside Windows: the optimization
    flags hold none of the machine-tuning flags [march=native],
    [mcpu=native] and [Xclang]; the system include directories are switched
    off with [nostdinc]; the three glog macros are passed as one
    pass-through argument; and on a platform that is not macOS
    [get_openmp_args] links [omp] and passes no [fopenmp] flag, for every
    compiler. *)
Theorem fbcode_profile (env : Env) (cpp_compiler : string) :
  config_is_fbcode env = true ->
  _IS_WINDOWS env = false ->
  (forall f, In f (optimization_cflags env) ->
     f <> "march=native" /\ f <> "mcpu=native" /\ f <> "Xclang")
  /\ use_standard_sys_dir_headers env = ["nostdinc"]
  /\ use_fb_internal_macros env
     = ["-D C10_USE_GLOG -D C10_USE_MINIMAL_GLOG -D C10_DISABLE_TENSORIMPL_EXTENSIBILITY"]
  /\ (_IS_MACOS env = false ->
      get_openmp_args env cpp_compiler = Ok ([], [], [], [], ["omp"])).
Proof.
  intros Hfb Hwin. split; [| split; [| split]].
  - intros f. unfold optimization_cflags. rewrite Hwin, Hfb.
    destruct (config_debug_compile env), (config_enable_unsafe_math_opt_flag env);
      cbv beta iota delta [app negb]; intro H; simpl in H;
      repeat (destruct H as [<- | H]; [repeat split; discriminate |]);
      destruct H.
  - unfold use_standard_sys_dir_headers. now rewrite Hwin, Hfb.
  - unfold use_fb_internal_macros. now rewrite Hwin, Hfb.
  - intro Hmac. unfold get_openmp_args. now rewrite Hmac, Hwin, Hfb.
Qed.

Lemma fbcode_profile_witness :
  let env := with_toggles (linux_env "clang++") false false true in
  config_is_fbcode env = true
  /\ _IS_WINDOWS env = false
  /\ optimization_cflags env
     = ["O3"; "DNDEBUG"; "ffast-math"; "fno-finite-math-only";
        "fno-unsafe-math-optimizations"]
  /\ get_openmp_args env "clang++" = Ok ([], [], [], [], ["omp"]).
Proof.
  intro env.
  split; [reflexivity |].
  split; [reflexivity |].
  split; [reflexivity |].
  exact (proj2 (proj2 (proj2 (fbcode_profile env "clang++" eq_refl eq_refl))) eq_refl).
Defined.

(** ** Which lists a constructor touches *)

Lemma untouched_ret {A} (a : attr) (x : A) : untouched a (ret x).
Proof. intro s. reflexivity. Qed.

Lemma untouched_raise {A} (a : attr) (e : exn) : untouched a (@raise Store A e).
Proof. intro s. reflexivity. Qed.

Lemma untouched_lift {A} (a : attr) (r : result A) : untouched a (lift r).
Proof. intro s. reflexivity. Qed.

Lemma untouched_append_other (a b : attr) (src : list string) :
  b <> a -> untouched a (nonduplicate_append_to b src).
Proof.
  intros N s. unfold nonduplicate_append_to, modify. simpl.
  now apply getattr_with_attr_other.
Qed.

Lemma untouched_append_nothing (a b : attr) : untouched a (nonduplicate_append_to b []).
Proof.
  intro s. unfold nonduplicate_append_to, modify. simpl.
  now rewrite with_attr_getattr.
Qed.

Lemma untouched_bind {A B} (a : attr) (m : M Store A) (k : A -> M Store B) :
  untouched a m -> (forall x, untouched a (k x)) -> untouched a (bind m k).
Proof.
  intros Hm Hk s. unfold bind. specialize (Hm s).
  destruct (m s) as [[x | e] s1]; simpl in *.
  - now rewrite Hk.
  - exact Hm.
Qed.

Lemma untouched_bind_lift {A B} (a : attr) (r : result A) (k : A -> M Store B) :
  (forall x, r = Ok x -> untouched a (k x)) -> untouched a (bind (lift r) k).
Proof.
  intros Hk s. unfold bind, lift. destruct r as [x | e]; [| reflexivity].
  now apply Hk.
Qed.

Ltac untouched_body :=
  repeat first
    [ apply untouched_ret
    | apply untouched_raise
    | apply untouched_append_nothing
    | apply untouched_append_other; discriminate
    | match goal with
      | |- untouched _ (bind ?m _) =>
          lazymatch m with
          | lift _ => fail
          | _ => apply untouched_bind; [| intros ?]
          end
      end
    | match goal with
      | |- untouched _ (match ?e with pair _ _ => _ end) => destruct e
      | |- untouched _ (if ?b then _ else _) => destruct b
      end ].

(** [get_openmp_args] never returns a linker flag. *)
Lemma openmp_ldflags_empty (env : Env) (cpp_compiler : string)
    (cf ld inc libd libs : list string) :
  get_openmp_args env cpp_compiler = Ok (cf, ld, inc, libd, libs) -> ld = [].
Proof.
  unfold get_openmp_args, rbind.
  destruct (_IS_MACOS env).
  - destruct (is_apple_clang env cpp_compiler) as [apple | e]; [| discriminate].
    unfold get_openmp_args_macos.
    repeat match goal with
           | |- context [match ?x with _ => _ end] =>
               match x with
               | context [match _ with _ => _ end] => fail 1
               | _ => destruct x
               end
           end; intro H; injection H; intros; subst; reflexivity.
  - destruct (_IS_WINDOWS env), (config_is_fbcode env), (is_clang cpp_compiler);
      intro H; injection H; intros; subst; reflexivity.
Qed.

Lemma CxxOptions_untouched (env : Env) (a : attr) :
  a <> self_cflags -> untouched a (CxxOptions__init__ env).
Proof.
  intro N. unfold CxxOptions__init__.
  repeat first
    [ apply untouched_ret
    | apply untouched_append_other; congruence
    | apply untouched_bind; [| intros ?] ].
Qed.

Lemma CxxTorchOptions_ldflags_untouched (env : Env) :
  untouched self_ldflags (CxxTorchOptions__init__ env).
Proof.
  unfold CxxTorchOptions__init__.
  apply untouched_bind; [apply CxxOptions_untouched; discriminate | intros self].
  untouched_body.
  apply untouched_bind_lift. intros [[[[cf ld] inc] libd] libs] E.
  apply openmp_ldflags_empty in E. subst ld.
  untouched_body.
Qed.

(** X5.  No option class ever adds a linker flag.  [get_openmp_args], the only
    source of linker flags, returns none on any platform, so constructing any
    of the three classes, under any surroundings and whether or not the
    constructor raises, leaves the list of linker flags as it was: empty, if
    it was empty at import time. *)
Theorem constructors_never_add_ldflags
    (env : Env) (c : option_class) (s : Store) :
  _ldflags (snd (construct env c s)) = _ldflags s
  /\ (forall cpp_compiler cf ld inc libd libs,
        get_openmp_args env cpp_compiler = Ok (cf, ld, inc, libd, libs) -> ld = []).
Proof.
  split; [| intros cpp; apply openmp_ldflags_empty].
  change (getattr self_ldflags (snd (construct env c s)) = getattr self_ldflags s).
  revert s. change (untouched self_ldflags (construct env c)).
  destruct c; simpl.
  - apply CxxOptions_untouched. discriminate.
  - apply CxxTorchOptions_ldflags_untouched.
  - unfold CxxTorchCudaOptions__init__.
    apply untouched_bind; [apply CxxTorchOptions_ldflags_untouched | intros self].
    untouched_body.
    apply untouched_bind_lift. intros [[inc libs] libd] _.
    untouched_body.
    apply untouched_bind_lift. intros [[cf defs] pass] _.
    untouched_body.
Qed.

(** X6.  Constructing [CxxOptions] changes the compiler flags and nothing
    else: the other six lists are the same before and after.  The compiler
    it records is [cl] on Windows when [CXX] is not set, the value of [CXX]
    when it is, and the compiler of [codecache] elsewhere. *)
Theorem CxxOptions_changes_only_cflags (env : Env) (s : Store) :
  (forall a, a <> self_cflags ->
     getattr a (snd (CxxOptions__init__ env s)) = getattr a s)
  /\ (exists self, fst (CxxOptions__init__ env s) = Ok self
        /\ get_compiler self
           = if _IS_WINDOWS env
             then match environ_CXX env with Some c => c | None => "cl" end
             else codecache_cpp_compiler env).
Proof.
  split.
  - intros a N. now apply CxxOptions_untouched.
  - eexists. split; reflexivity.
Qed.

Lemma CxxOptions_changes_only_cflags_witness :
  _libraries (snd (CxxOptions__init__ windows_env demo_store)) = ["c10"]
  /\ _definations (snd (CxxOptions__init__ windows_env demo_store)) = ["NDEBUG"].
Proof.
  split.
  - exact (proj1 (CxxOptions_changes_only_cflags windows_env demo_store)
             self_libraries ltac:(discriminate)).
  - exact (proj1 (CxxOptions_changes_only_cflags windows_env demo_store)
             self_definations ltac:(discriminate)).
Defined.

(** ** OpenMP on macOS *)

(** X7.  On macOS [get_openmp_args] first asks the compiler for its version.
    If that fails, the exception is the result.  Otherwise it returns no
    compiler flag and no linker flag; include directories and library
    directories come in pairs; the only libraries it can name are [omp] and
    [iomp5], [iomp5] only together with [omp]; and for a compiler whose
    version line does not mention [Apple] it names no library at all. *)
Theorem macos_openmp_args (env : Env) (cpp_compiler : string) :
  _IS_MACOS env = true ->
  match compiler_version_first_line env cpp_compiler with
  | Raise e => get_openmp_args env cpp_compiler = Raise e
  | Ok line =>
      exists inc libd libs,
        get_openmp_args env cpp_compiler = Ok ([], [], inc, libd, libs)
        /\ length inc = length libd
        /\ (forall l, In l libs -> l = "omp" \/ l = "iomp5")
        /\ (In "iomp5" libs -> In "omp" libs)
        /\ (Py.str_in "Apple" line = false -> libs = [])
  end.
Proof.
  intro Hmac. unfold get_openmp_args, is_apple_clang, rbind. rewrite Hmac.
  destruct (compiler_version_first_line env cpp_compiler) as [line | e];
    [| reflexivity].
  unfold get_openmp_args_macos.
  destruct (Py.str_in "Apple" line);
  destruct (getenv_OMP_PREFIX env) as [omp_prefix |];
  try destruct (os_path_exists env (os_path_join env omp_prefix ["include"; "omp.h"]));
  destruct (getenv_CONDA_PREFIX env) as [conda_prefix |];
  cbn [negb orb];
  try destruct (is_conda_llvm_openmp_installed env);
  try destruct (String.eqb (os_uname_machine env) "x86_64"
                && os_path_exists env
                     (os_path_join env (os_path_join env conda_prefix ["lib"])
                        ["libiomp5.dylib"]));
  destruct (homebrew_libomp env) as [[|] libomp_path];
  cbn [negb app];
  do 3 eexists; (split; [reflexivity |]);
  (split; [reflexivity |]);
  (split; [simpl; intuition congruence |]);
  (split; [simpl; intuition congruence |]);
  intro; simpl; congruence.
Qed.

Lemma macos_openmp_args_witness :
  _IS_MACOS darwin_conda_env = true
  /\ _IS_MACOS darwin_broken_compiler_env = true
  /\ (exists inc libd libs,
        get_openmp_args darwin_conda_env "clang++" = Ok ([], [], inc, libd, libs)
        /\ length inc = length libd
        /\ (forall l, In l libs -> l = "omp" \/ l = "iomp5")
        /\ (In "iomp5" libs -> In "omp" libs)
        /\ (Py.str_in "Apple" "Apple clang version 15.0.0" = false -> libs = []))
  /\ get_openmp_args darwin_broken_compiler_env "clang++"
     = Raise (OSError "No such file or directory").
Proof.
  split; [reflexivity |].
  split; [reflexivity |].
  split.
  - exact (macos_openmp_args darwin_conda_env "clang++" eq_refl).
  - exact (macos_openmp_args darwin_broken_compiler_env "clang++" eq_refl).
Defined.

(** ** The CUDA class *)

Lemma torch_macro_after_torch_options (env : Env) (s : Store) :
  In "TORCH_INDUCTOR_CPP_WRAPPER" (_definations (snd (CxxTorchOptions__init__ env s))).
Proof.
  unfold CxxTorchOptions__init__.
  rewrite (bind_ok _ _ _ _ _ (CxxOptions_returns env s)).
  change (_definations ?x) with (getattr self_definations x).
  apply bind_append_In; [now left |].
  stepwise_body.
Qed.

(** Away from Linux the CUDA constructor ends in the exception of
    [get_torch_cuda_args], in the store the Torch part left. *)
Lemma cuda_options_off_linux (env : Env) (s : Store) :
  _IS_LINUX env = false ->
  CxxTorchCudaOptions__init__ env s
  = match CxxTorchOptions__init__ env s with
    | (Ok _, s1) =>
        (Raise (NotImplementedError
           "Unsupported env, failed to find cuda libs! Currently only Linux is supported."),
         s1)
    | (Raise e, s1) => (Raise e, s1)
    end.
Proof.
  intro Hlinux. unfold CxxTorchCudaOptions__init__, bind at 1.
  destruct (CxxTorchOptions__init__ env s) as [[self | e] s1]; [| reflexivity].
  unfold bind, lift, get_torch_cuda_args. rewrite Hlinux. reflexivity.
Qed.

(** X8.  Away from Linux a [CxxTorchCudaOptions] cannot be constructed: the
    constructor first runs the whole constructor of [CxxTorchOptions] and
    then raises [NotImplementedError] (or the exception of the Torch part, if
    that raised).  No instance results, but the shared lists keep what the
    Torch part appended: they are exactly as after constructing a
    [CxxTorchOptions], and hold the macro [TORCH_INDUCTOR_CPP_WRAPPER]. *)
Theorem cuda_options_away_from_linux (env : Env) (s : Store) :
  _IS_LINUX env = false ->
  (exists e, fst (CxxTorchCudaOptions__init__ env s) = Raise e
     /\ (e = NotImplementedError
              "Unsupported env, failed to find cuda libs! Currently only Linux is supported."
         \/ fst (CxxTorchOptions__init__ env s) = Raise e))
  /\ snd (CxxTorchCudaOptions__init__ env s) = snd (CxxTorchOptions__init__ env s)
  /\ In "TORCH_INDUCTOR_CPP_WRAPPER"
       (_definations (snd (CxxTorchCudaOptions__init__ env s))).
Proof.
  intro Hlinux.
  pose proof (cuda_options_off_linux env s Hlinux) as E.
  assert (Es : snd (CxxTorchCudaOptions__init__ env s)
               = snd (CxxTorchOptions__init__ env s)).
  { rewrite E. destruct (CxxTorchOptions__init__ env s) as [[self | e] s1]; reflexivity. }
  split; [| split; [exact Es |]].
  - rewrite E. destruct (CxxTorchOptions__init__ env s) as [[self | e] s1]; simpl.
    + eexists. split; [reflexivity | now left].
    + exists e. split; [reflexivity | now right].
  - rewrite Es. apply torch_macro_after_torch_options.
Qed.

Lemma cuda_options_away_from_linux_witness :
  _IS_LINUX windows_env = false
  /\ snd (CxxTorchCudaOptions__init__ windows_env initial_store)
     = snd (CxxTorchOptions__init__ windows_env initial_store)
  /\ In "TORCH_INDUCTOR_CPP_WRAPPER"
       (_definations (snd (CxxTorchCudaOptions__init__ windows_env initial_store))).
Proof.
  split; [reflexivity |].
  exact (proj2 (cuda_options_away_from_linux windows_env initial_store eq_refl)).
Defined.

(** What [get_nvcc_compiler_options] returns always holds these entries. *)
Lemma nvcc_options_content (env : Env) (cf defs pass : list string) :
  get_nvcc_compiler_options env = Ok (cf, defs, pass) ->
  In "t=0" cf
  /\ In "CUTLASS_ENABLE_TENSOR_CORE_MMA=1" defs
  /\ In "-w" pass
  /\ In (config_compile_opt_level env) pass
  /\ In "--expt-relaxed-constexpr" pass.
Proof.
  unfold get_nvcc_compiler_options.
  destruct (negb (_IS_WINDOWS env)); [| discriminate].
  destruct (config_enable_debug_info env), (config_enable_ptxas_info env),
    (config_use_fast_math env);
    cbv beta iota zeta; intro H; injection H; intros; subst;
    repeat split; simpl; tauto.
Qed.

Lemma tokens_In (fmt : string -> string) (l : list string) (x : string) :
  In x l -> Py.str_in (fmt x) (tokens fmt l) = true.
Proof.
  induction l as [|y l IH]; intro H; [destruct H | destruct H as [-> | H]].
  - unfold tokens. simpl. apply str_in_here, startswith_refl_app.
  - unfold tokens. simpl. apply str_in_app_r. now apply IH.
Qed.

Lemma join_In (sep : string) (l : list string) (x : string) :
  In x l -> Py.str_in x (Py.join sep l) = true.
Proof.
  induction l as [|y l IH]; intro H; [destruct H | destruct H as [-> | H]].
  - destruct l; simpl.
    + apply str_in_here. rewrite <- (append_nil_r x) at 2. apply startswith_refl_app.
    + apply str_in_here, startswith_refl_app.
  - destruct l as [|z l]; [destruct H |].
    change (Py.join sep (y :: z :: l)) with (y ++ sep ++ Py.join sep (z :: l)).
    apply str_in_app_r, str_in_app_r. now apply IH.
Qed.

(** A text that occurs in the sources or in one of the seven argument texts
    occurs in the command line of a platform other than Windows. *)
Lemma unix_command_line_has (env : Env) (b : CxxBuilder) (n : string) :
  _IS_WINDOWS env = false ->
  Py.str_in n (_sources_args b) = true
  \/ Py.str_in n (_definations_args b) = true
  \/ Py.str_in n (_cflags_args b) = true
  \/ Py.str_in n (_include_dirs_args b) = true
  \/ Py.str_in n (_passthough_parameters_args b) = true
  \/ Py.str_in n (_ldflags_args b) = true
  \/ Py.str_in n (_libraries_args b) = true
  \/ Py.str_in n (_libraries_dirs_args b) = true ->
  Py.str_in n (get_command_line env b) = true.
Proof.
  intros Hwin H. rewrite (unix_command_line env b Hwin).
  destruct H as [H | H].
  { apply str_in_app_l. do 2 apply str_in_app_r. now apply str_in_app_l. }
  apply str_in_app_r, str_in_app_l.
  destruct H as [H | H]; [now apply str_in_app_l |]. do 2 apply str_in_app_r.
  destruct H as [H | H]; [now apply str_in_app_l |]. do 2 apply str_in_app_r.
  destruct H as [H | H]; [now apply str_in_app_l |]. do 2 apply str_in_app_r.
  destruct H as [H | H]; [now apply str_in_app_l |]. do 2 apply str_in_app_r.
  destruct H as [H | H]; [now apply str_in_app_l |]. do 2 apply str_in_app_r.
  destruct H as [H | H]; [now apply str_in_app_l |]. do 2 apply str_in_app_r.
  now apply str_in_app_l.
Qed.

(** X9.  [CxxTorchCudaOptions] appends the CUDA definitions and the CUDA
    pass-through arguments to the compiler flags, not to the definitions and
    the pass-through arguments: after the constructor, raised or not, these
    two lists are exactly as the Torch part left them.  When it returns, the
    compiler flags hold [CUTLASS_ENABLE_TENSOR_CORE_MMA=1], [-w] and
    [--expt-relaxed-constexpr], and a command line rendered from the
    instance writes them with the dash of a compiler flag:
    [-CUTLASS_ENABLE_TENSOR_CORE_MMA=1], [--w], [---expt-relaxed-constexpr]. *)
Theorem cuda_defines_and_pass_args_become_cflags
    (env : Env) (s s' : Store) (self : BuildOptionsBase)
    (name : string) (sources : list string) (output_dir : option string) :
  CxxTorchCudaOptions__init__ env s = (Ok self, s') ->
  _definations s' = _definations (snd (CxxTorchOptions__init__ env s))
  /\ _passthough_args s' = _passthough_args (snd (CxxTorchOptions__init__ env s))
  /\ In "CUTLASS_ENABLE_TENSOR_CORE_MMA=1" (_cflags s')
  /\ In "-w" (_cflags s')
  /\ In "--expt-relaxed-constexpr" (_cflags s')
  /\ (let cmd := get_command_line env
                   (CxxBuilder__init__ env name sources self s' output_dir) in
      Py.str_in "-CUTLASS_ENABLE_TENSOR_CORE_MMA=1 " cmd = true
      /\ Py.str_in "--w " cmd = true
      /\ Py.str_in "---expt-relaxed-constexpr " cmd = true).
Proof.
  intro H.
  assert (Hlinux : _IS_LINUX env = true).
  { destruct (_IS_LINUX env) eqn:E; [reflexivity |].
    rewrite (cuda_options_off_linux env s E) in H.
    destruct (CxxTorchOptions__init__ env s) as [[self0 | e] s1]; discriminate H. }
  assert (Hwin : _IS_WINDOWS env = false) by (apply linux_not_windows, Hlinux).
  unfold CxxTorchCudaOptions__init__ in H. unfold bind at 1 in H.
  destruct (CxxTorchOptions__init__ env s) as [[self0 | e] s1]; [| discriminate].
  unfold bind at 1 in H. unfold lift at 1 in H.
  destruct (get_torch_cuda_args env) as [[[inc libs] libd] | e]; [| discriminate].
  unfold bind, nonduplicate_append_to, modify, lift, ret in H.
  destruct (get_nvcc_compiler_options env) as [[[cf defs] pass] | e] eqn:En;
    [| discriminate].
  destruct (nvcc_options_content env cf defs pass En) as [_ [Hd [Hw [_ Hx]]]].
  injection H as Hself Hs. clear Hself.
  assert (Hc : forall x, In x defs \/ In x pass -> In x (_cflags s')).
  { intros x Hx'. rewrite <- Hs. cbn [_cflags with_attr getattr].
    rewrite !nonduplicate_append_In. tauto. }
  assert (Hdefs : _definations s' = _definations s1) by (now rewrite <- Hs).
  assert (Hpass : _passthough_args s' = _passthough_args s1) by (now rewrite <- Hs).
  clear Hs.
  split; [exact Hdefs |].
  split; [exact Hpass |].
  split; [apply Hc; now left |].
  split; [apply Hc; now right |].
  split; [apply Hc; now right |].
  cbv zeta.
  assert (Hcmd : forall x, In x defs \/ In x pass ->
            Py.str_in ("-" ++ x ++ " ")
              (get_command_line env
                 (CxxBuilder__init__ env name sources self s' output_dir)) = true).
  { intros x Hx'. apply unix_command_line_has; [exact Hwin |].
    right. right. left. unfold CxxBuilder__init__. cbn [_cflags_args].
    rewrite accumulate_tokens.
    assert (Ef : ("-" ++ x ++ " ") = fmt_cflag env x)
      by (unfold fmt_cflag; now rewrite Hwin).
    rewrite Ef. apply tokens_In. unfold get_cflags. now apply Hc. }
  split; [apply (Hcmd "CUTLASS_ENABLE_TENSOR_CORE_MMA=1"); now left |].
  split; [apply (Hcmd "-w"); now right |].
  apply (Hcmd "--expt-relaxed-constexpr"); now right.
Qed.

Lemma cuda_defines_and_pass_args_become_cflags_witness :
  let env := linux_env "g++" in
  let r := CxxTorchCudaOptions__init__ env initial_store in
  let cmd := get_command_line env
               (CxxBuilder__init__ env "k" ["k.cu"] {| _compiler := "nvcc" |} (snd r)
                  (Some "/tmp/out")) in
  fst r = Ok {| _compiler := "nvcc" |}
  /\ In "-w" (_cflags (snd r))
  /\ ~ In "-w" (_passthough_args (snd r))
  /\ Py.str_in "--w " cmd = true.
Proof.
  intros env r cmd.
  assert (E : CxxTorchCudaOptions__init__ env initial_store
              = (Ok {| _compiler := "nvcc" |}, snd r))
    by (vm_compute; reflexivity).
  destruct (cuda_defines_and_pass_args_become_cflags env initial_store (snd r)
              {| _compiler := "nvcc" |} "k" ["k.cu"] (Some "/tmp/out") E)
    as [_ [_ [_ [Hw [_ [_ [Hcmd _]]]]]]].
  split; [vm_compute; reflexivity |].
  split; [exact Hw |].
  split; [| exact Hcmd].
  vm_compute. intuition discriminate.
Defined.

(** ** Flags are never taken back *)

Lemma optimization_cflags_in_CxxOptions (env : Env) (s : Store) (f : string) :
  In f (optimization_cflags env) -> In f (_cflags (snd (CxxOptions__init__ env s))).
Proof.
  intro H. unfold CxxOptions__init__, bind, nonduplicate_append_to, modify, ret.
  cbn [snd _cflags with_attr getattr].
  rewrite !nonduplicate_append_In. tauto.
Qed.

(** X10.  Constructors only ever append.  When [debug_compile] is changed
    between two constructions in one process, the flags of both settings
    pile up: after a [CxxOptions] constructed in debug mode and one
    constructed in release mode, on a platform other than Windows, the
    shared compiler flags hold [O0] and [O3], in the order of the
    constructions, and every instance renders both. *)
Theorem toggle_change_accumulates_both_levels (env_debug env_release : Env) (s : Store) :
  _IS_WINDOWS env_debug = false ->
  _IS_WINDOWS env_release = false ->
  config_debug_compile env_debug = true ->
  config_debug_compile env_release = false ->
  let after_debug := snd (CxxOptions__init__ env_debug s) in
  let after_release := snd (CxxOptions__init__ env_release after_debug) in
  In "O0" (_cflags after_debug)
  /\ In "O0" (_cflags after_release)
  /\ In "O3" (_cflags after_release)
  /\ (forall a x, In x (getattr a s) -> In x (getattr a after_release)).
Proof.
  intros W1 W2 D1 D2 after_debug after_release.
  assert (H0 : In "O0" (_cflags after_debug)).
  { apply optimization_cflags_in_CxxOptions.
    unfold optimization_cflags. rewrite W1, D1. simpl.
    destruct (negb (config_enable_unsafe_math_opt_flag env_debug)),
      (config_is_fbcode env_debug), (String.eqb (sys_platform env_debug) "darwin"),
      (String.eqb (platform_machine env_debug) "ppc64le"); simpl; tauto. }
  assert (Hmono : forall env s0 a x,
            In x (getattr a s0) -> In x (getattr a (snd (CxxOptions__init__ env s0)))).
  { intros env s0 a x Hx.
    now apply (stepwise_monotone _ (CxxOptions_stepwise env)). }
  split; [exact H0 |].
  split; [exact (Hmono env_release after_debug self_cflags "O0" H0) |].
  split.
  - apply optimization_cflags_in_CxxOptions.
    unfold optimization_cflags. rewrite W2, D2. simpl.
    destruct (negb (config_enable_unsafe_math_opt_flag env_release)),
      (config_is_fbcode env_release), (String.eqb (sys_platform env_release) "darwin"),
      (String.eqb (platform_machine env_release) "ppc64le"); simpl; tauto.
  - intros a x Hx. apply Hmono, Hmono, Hx.
Qed.

Lemma toggle_change_accumulates_both_levels_witness :
  let env_debug := with_toggles (linux_env "g++") true false false in
  let env_release := linux_env "g++" in
  _cflags (snd (CxxOptions__init__ env_debug initial_store))
  = ["shared"; "fPIC"; "O0"; "g"; "ffast-math"; "fno-finite-math-only";
     "fno-unsafe-math-optimizations"; "march=native"; "std=c++17";
     "Wno-unused-variable"; "Wno-unknown-pragmas"]
  /\ In "O0" (_cflags (snd (CxxOptions__init__ env_release
                              (snd (CxxOptions__init__ env_debug initial_store)))))
  /\ In "O3" (_cflags (snd (CxxOptions__init__ env_release
                              (snd (CxxOptions__init__ env_debug initial_store))))).
Proof.
  intros env_debug env_release.
  destruct (toggle_change_accumulates_both_levels env_debug env_release initial_store
              eq_refl eq_refl eq_refl eq_refl) as [_ [H0 [H3 _]]].
  split; [reflexivity |].
  split; [exact H0 | exact H3].
Defined.

(** ** Every entry reaches the command line *)

(** X11.  On a platform other than Windows nothing is lost in rendering:
    every source path occurs in the command line, and every entry of the
    seven lists occurs in it as its own token, blank included, with the
    prefix of its list ([-] for compiler and linker flags, [-D], [-I], [-L],
    [-l], none for pass-through arguments). *)
Theorem unix_command_line_contains_every_entry
    (env : Env) (name : string) (sources : list string)
    (BuildOption : BuildOptionsBase) (s : Store) (output_dir : option string) :
  _IS_WINDOWS env = false ->
  let cmd := get_command_line env
               (CxxBuilder__init__ env name sources BuildOption s output_dir) in
  (forall x, In x sources -> Py.str_in x cmd = true)
  /\ (forall x, In x (get_definations BuildOption s) ->
        Py.str_in ("-D" ++ x ++ " ") cmd = true)
  /\ (forall x, In x (get_cflags BuildOption s) -> Py.str_in ("-" ++ x ++ " ") cmd = true)
  /\ (forall x, In x (get_include_dirs BuildOption s) ->
        Py.str_in ("-I" ++ x ++ " ") cmd = true)
  /\ (forall x, In x (get_passthough_args BuildOption s) ->
        Py.str_in (x ++ " ") cmd = true)
  /\ (forall x, In x (get_ldflags BuildOption s) -> Py.str_in ("-" ++ x ++ " ") cmd = true)
  /\ (forall x, In x (get_libraries BuildOption s) ->
        Py.str_in ("-l" ++ x ++ " ") cmd = true)
  /\ (forall x, In x (get_libraries_dirs BuildOption s) ->
        Py.str_in ("-L" ++ x ++ " ") cmd = true).
Proof.
  intros Hwin cmd. subst cmd.
  assert (F : (forall x, fmt_defination env x = "-D" ++ x ++ " ")
              /\ (forall x, fmt_cflag env x = "-" ++ x ++ " ")
              /\ (forall x, fmt_include_dir env x = "-I" ++ x ++ " ")
              /\ (forall x, fmt_ldflag env x = "-" ++ x ++ " ")
              /\ (forall x, fmt_lib env x = "-l" ++ x ++ " ")
              /\ (forall x, fmt_lib_dir env x = "-L" ++ x ++ " ")).
  { unfold fmt_defination, fmt_cflag, fmt_include_dir, fmt_ldflag, fmt_lib, fmt_lib_dir.
    rewrite Hwin. repeat split. }
  destruct F as [Fd [Fc [Fi [Fl [Fb Fld]]]]].
  repeat split; intros x Hx; apply unix_command_line_has; try exact Hwin;
    unfold CxxBuilder__init__;
    cbn [_sources_args _definations_args _cflags_args _include_dirs_args
         _passthough_parameters_args _ldflags_args _libraries_args _libraries_dirs_args];
    rewrite ?accumulate_tokens.
  - left. now apply join_In.
  - right. left. rewrite <- Fd. now apply tokens_In.
  - right. right. left. rewrite <- Fc. now apply tokens_In.
  - right. right. right. left. rewrite <- Fi. now apply tokens_In.
  - right. right. right. right. left.
    change (x ++ " ") with (fmt_passthough_arg x). now apply tokens_In.
  - right. right. right. right. right. left. rewrite <- Fl. now apply tokens_In.
  - right. right. right. right. right. right. left. rewrite <- Fb. now apply tokens_In.
  - right. right. right. right. right. right. right. rewrite <- Fld. now apply tokens_In.
Qed.

Lemma unix_command_line_contains_every_entry_witness :
  let cmd := get_command_line (linux_env "g++")
               (CxxBuilder__init__ (linux_env "g++") "k" ["k.cpp"; "helper.cpp"]
                  demo_options demo_store None) in
  Py.str_in "helper.cpp" cmd = true
  /\ Py.str_in "-lc10 " cmd = true
  /\ Py.str_in "-mavx2 " cmd = true.
Proof.
  intro cmd.
  destruct (unix_command_line_contains_every_entry (linux_env "g++") "k"
              ["k.cpp"; "helper.cpp"] demo_options demo_store None eq_refl)
    as [Hs [_ [_ [_ [Hp [_ [Hl _]]]]]]].
  split; [apply Hs; simpl; tauto |].
  split; [apply (Hl "c10"); simpl; tauto |].
  apply (Hp "-mavx2"); simpl; tauto.
Defined.

(** ** Backslashes on Windows *)

(** X12.  The command line for Windows holds no backslash: each one, in the
    compiler path, the sources, the options, the pass-through arguments or
    the target, has become a slash.  The length is unchanged. *)
Theorem windows_command_line_has_no_backslash (env : Env) (self : CxxBuilder) :
  _IS_WINDOWS env = true ->
  Py.str_in (String backslash_char EmptyString) (get_command_line env self) = false
  /\ exists raw,
       get_command_line env self = to_slashes raw
       /\ String.length (get_command_line env self) = String.length raw
       /\ Py.str_in (_sources_args self) raw = true.
Proof.
  intro Hwin. unfold get_command_line, format_build_command. rewrite Hwin.
  split; [apply to_slashes_no_backslash |].
  eexists. split; [reflexivity |]. split.
  - generalize (b_compiler self ++ " " ++ _include_dirs_args self ++ " "
                ++ _definations_args self ++ " " ++ _cflags_args self ++ " "
                ++ _sources_args self ++ " " ++ _passthough_parameters_args self
                ++ " /LD /Fe" ++ _target_file self ++ " /link "
                ++ _libraries_dirs_args self ++ " " ++ _libraries_args self ++ " "
                ++ _ldflags_args self ++ " ").
    intro raw. unfold to_slashes.
    induction raw as [|c raw IH]; simpl; [reflexivity | now rewrite IH].
  - do 8 apply str_in_app_r. apply str_in_here, startswith_refl_app.
Qed.

Lemma windows_command_line_has_no_backslash_witness :
  let self := CxxBuilder__init__ windows_env "k" ["src\k.cpp"] demo_options demo_store
                (Some "C:\build") in
  _sources_args self = "src\k.cpp"
  /\ Py.str_in (String backslash_char EmptyString) (get_command_line windows_env self)
     = false
  /\ Py.str_in "src/k.cpp" (get_command_line windows_env self) = true.
Proof.
  intro self.
  split; [reflexivity |].
  split; [| reflexivity].
  exact (proj1 (windows_command_line_has_no_backslash windows_env self eq_refl)).
Defined.

(** ** The target file and the scratch directory *)

Lemma startswith_slash_app (name ext : string) :
  Py.startswith "/" ext = false ->
  Py.startswith "/" (name ++ ext) = Py.startswith "/" name.
Proof.
  intro H. destruct name as [|c name]; [exact H | reflexivity].
Qed.

Lemma posix_join2_endswith (d f : string) : Py.endswith f (Py.posix_join2 d f) = true.
Proof.
  unfold Py.posix_join2. destruct (Py.startswith "/" f).
  - apply endswith_refl.
  - destruct (String.eqb d "" || Py.endswith "/" d).
    + apply endswith_app.
    + rewrite <- append_assoc. apply endswith_app.
Qed.

(** X13.  On a platform other than Windows the target file always ends with
    the name followed by [.so].  A name that starts with a slash overrides
    the output directory: the target is the name with [.so] and the scratch
    directory is the name with [_CxxBuild], both outside the output
    directory, whatever it is. *)
Theorem absolute_name_overrides_output_dir
    (env : Env) (name : string) (sources : list string)
    (BuildOption : BuildOptionsBase) (s : Store) (output_dir : option string) :
  _IS_WINDOWS env = false ->
  let self := CxxBuilder__init__ env name sources BuildOption s output_dir in
  Py.endswith (name ++ ".so") (get_target_file_path self) = true
  /\ Py.endswith (name ++ "_CxxBuild") (build_tmp_dir env self) = true
  /\ (Py.startswith "/" name = true ->
      get_target_file_path self = name ++ ".so"
      /\ build_tmp_dir env self = name ++ "_CxxBuild").
Proof.
  intros Hwin self. subst self.
  unfold get_target_file_path, build_tmp_dir, CxxBuilder__init__, get_shared_lib_ext,
    os_path_join, _BUILD_TEMP_DIR.
  cbn [_target_file _output_dir _name]. rewrite Hwin.
  unfold Py.posixpath_join. cbn [fold_left].
  split; [apply posix_join2_endswith |].
  split; [apply posix_join2_endswith |].
  intro Habs. unfold Py.posix_join2.
  rewrite !startswith_slash_app by reflexivity. rewrite Habs. now split.
Qed.

Lemma absolute_name_overrides_output_dir_witness :
  let self := CxxBuilder__init__ (linux_env "g++") "/var/cache/k" ["k.cpp"]
                demo_options demo_store (Some "/tmp/out") in
  get_target_file_path self = "/var/cache/k.so"
  /\ build_tmp_dir (linux_env "g++") self = "/var/cache/k_CxxBuild".
Proof.
  intro self.
  exact (proj2 (proj2 (absolute_name_overrides_output_dir (linux_env "g++")
                         "/var/cache/k" ["k.cpp"] demo_options demo_store
                         (Some "/tmp/out") eq_refl)) eq_refl).
Defined.

(** ** Creating and removing directories *)












(** ** [run_command_line] and [build]: the other ways to fail *)

(** X17.  Only a non-zero return code is turned into [CppCompileError].  A
    command line that [shlex.split] rejects raises its [ValueError] before
    any process is started; a compiler that cannot be started raises the
    exception of the operating system; and when the output of a failed
    compiler is not UTF-8, the decoding error is raised in place of
    [CppCompileError], so that the command and the output are not
    reported. *)
Theorem run_command_line_other_failures
    (env : Env) (host : Host) (cmd_line : string) (cwd : option string) (fs : FS) :
  (forall e, shlex_split host cmd_line = Raise e ->
     run_command_line env host cmd_line cwd fs = (Raise e, fs))
  /\ (forall cmd e fs',
        shlex_split host cmd_line = Ok cmd ->
        spawn host cmd cwd fs = (Raise e, fs') ->
        run_command_line env host cmd_line cwd fs = (Raise e, fs'))
  /\ (forall cmd returncode captured e fs',
        shlex_split host cmd_line = Ok cmd ->
        spawn host cmd cwd fs = (Ok (returncode, captured), fs') ->
        returncode <> 0%Z ->
        decode_utf8 host captured = Raise e ->
        run_command_line env host cmd_line cwd fs = (Raise e, fs')).
Proof.
  unfold run_command_line, bind, lift. repeat split.
  - intros e H. now rewrite H.
  - intros cmd e fs' H1 H2. now rewrite H1, H2.
  - intros cmd rc captured e fs' H1 H2 H3 H4. rewrite H1, H2.
    apply Z.eqb_neq in H3. now rewrite H3, H4.
Qed.

Lemma run_command_line_other_failures_witness :
  run_command_line (linux_env "g++") unbalanced_quote_host "g++ 'k.cpp" None []
  = (Raise (ValueError "No closing quotation"), [])
  /\ run_command_line (linux_env "g++") no_compiler_host "g++ k.cpp" None []
     = (Raise (OSError "No such file or directory: g++"), [])
  /\ run_command_line (linux_env "g++") latin1_output_host "g++ k.cpp" None []
     = (Raise UnicodeDecodeError, []).
Proof.
  split; [| split].
  - exact (proj1 (run_command_line_other_failures (linux_env "g++") unbalanced_quote_host
                    "g++ 'k.cpp" None []) _ eq_refl).
  - exact (proj1 (proj2 (run_command_line_other_failures (linux_env "g++")
                           no_compiler_host "g++ k.cpp" None []))
             ["g++"; "k.cpp"] _ [] eq_refl eq_refl).
  - exact (proj2 (proj2 (run_command_line_other_failures (linux_env "g++")
                           latin1_output_host "g++ k.cpp" None []))
             ["g++"; "k.cpp"] 1%Z "erreur" _ [] eq_refl eq_refl
             ltac:(discriminate) eq_refl).
Defined.

Lemma constructors_never_add_ldflags_witness :
  _ldflags (snd (construct (linux_env "g++") CxxTorchCudaOptions demo_store)) = ["s"]
  /\ _ldflags (snd (construct darwin_conda_env CxxTorchOptions initial_store)) = [].
Proof.
  split.
  - exact (proj1 (constructors_never_add_ldflags (linux_env "g++") CxxTorchCudaOptions
                    demo_store)).
  - exact (proj1 (constructors_never_add_ldflags darwin_conda_env CxxTorchOptions
                    initial_store)).
Defined.

(** ** Windows *)

Lemma windows_not_macos (env : Env) : _IS_WINDOWS env = true -> _IS_MACOS env = false.
Proof.
  unfold _IS_WINDOWS, _IS_MACOS. intro H. apply String.eqb_eq in H. now rewrite H.
Qed.

Lemma adds_ret {A} (a : attr) (x : A) : adds a [] (ret x).
Proof. intro s. now exists x, s. Qed.

Lemma adds_append_same (a : attr) (src : list string) :
  adds a src (nonduplicate_append_to a src).
Proof.
  intro s. unfold nonduplicate_append_to, modify. eexists _, _.
  split; [reflexivity |]. apply getattr_with_attr_same.
Qed.

Lemma adds_append_other (a b : attr) (src : list string) :
  b <> a -> adds a [] (nonduplicate_append_to b src).
Proof.
  intros N s. unfold nonduplicate_append_to, modify. eexists _, _.
  split; [reflexivity |]. now apply getattr_with_attr_other.
Qed.

Lemma adds_bind {A B} (a : attr) (l1 l2 : list string)
    (m : M Store A) (k : A -> M Store B) :
  adds a l1 m -> (forall x, adds a l2 (k x)) -> adds a (l1 ++ l2)%list (bind m k).
Proof.
  intros Hm Hk s. destruct (Hm s) as [x [s1 [E1 G1]]].
  destruct (Hk x s1) as [y [s2 [E2 G2]]].
  exists y, s2. unfold bind. rewrite E1. split; [exact E2 |].
  now rewrite G2, G1, nonduplicate_append_app.
Qed.

Lemma adds_bind_lift_ok {A B} (a : attr) (l : list string) (x : A) (k : A -> M Store B) :
  adds a l (k x) -> adds a l (bind (lift (Ok x)) k).
Proof. intros H s. exact (H s). Qed.

Ltac adds_body :=
  repeat first
    [ eapply adds_ret
    | eapply adds_append_same
    | eapply adds_append_other; discriminate
    | eapply adds_bind_lift_ok; cbv beta iota zeta
    | eapply adds_bind; [| intros ?] ].

(** X19.  On Windows none of the policy toggles has an effect.  A
    [CxxTorchOptions] appends to the compiler flags exactly [DLL], [O2],
    [std:c++17] and [openmp], whatever [debug_compile],
    [enable_unsafe_math_opt_flag] and [is_fbcode] say; to the libraries
    [torch], [torch_cpu] and [c10], and no OpenMP library; and to the
    pass-through arguments only the flag of the chosen instruction set, the
    C++ ABI definition being left out.  Composed on the lists as they are at
    import time, these are the three lists. *)
Theorem windows_torch_options (env : Env) :
  _IS_WINDOWS env = true ->
  (forall s,
     let r := CxxTorchOptions__init__ env s in
     _cflags (snd r)
     = _nonduplicate_append (_cflags s) ["DLL"; "O2"; "std:c++17"; "openmp"]
     /\ _libraries (snd r)
        = _nonduplicate_append (_libraries s) ["torch"; "torch_cpu"; "c10"]
     /\ _passthough_args (snd r)
        = _nonduplicate_append (_passthough_args s) [chosen_isa_build_arch_flags env])
  /\ (let r := CxxTorchOptions__init__ env initial_store in
      _cflags (snd r) = ["DLL"; "O2"; "std:c++17"; "openmp"]
      /\ _libraries (snd r) = ["torch"; "torch_cpu"; "c10"]
      /\ _passthough_args (snd r) = [chosen_isa_build_arch_flags env]).
Proof.
  intro Hwin.
  pose proof (windows_not_macos env Hwin) as Hmac.
  assert (Hadds : forall a, exists l, adds a l (CxxTorchOptions__init__ env)
            /\ (a = self_cflags -> l = ["DLL"; "O2"; "std:c++17"; "openmp"])
            /\ (a = self_libraries -> l = ["torch"; "torch_cpu"; "c10"])
            /\ (a = self_passthough_args -> l = [chosen_isa_build_arch_flags env])).
  { unfold CxxTorchOptions__init__, CxxOptions__init__, get_openmp_args,
      _get_shared_cflag, optimization_cflags, get_warning_all_flag, get_cxx_std,
      get_linux_cpp_cflags, use_standard_sys_dir_headers, get_build_args_of_chosen_isa,
      get_torch_related_args, get_python_related_args.
    rewrite Hmac, Hwin. cbv beta iota zeta delta [negb].
    intro a. destruct a; eexists; (split; [adds_body |]);
      repeat split; intro; try discriminate; reflexivity. }
  assert (Hc : adds self_cflags ["DLL"; "O2"; "std:c++17"; "openmp"]
                 (CxxTorchOptions__init__ env)).
  { destruct (Hadds self_cflags) as [l [H [E _]]]. now rewrite <- (E eq_refl). }
  assert (Hl : adds self_libraries ["torch"; "torch_cpu"; "c10"]
                 (CxxTorchOptions__init__ env)).
  { destruct (Hadds self_libraries) as [l [H [_ [E _]]]]. now rewrite <- (E eq_refl). }
  assert (Hp : adds self_passthough_args [chosen_isa_build_arch_flags env]
                 (CxxTorchOptions__init__ env)).
  { destruct (Hadds self_passthough_args) as [l [H [_ [_ E]]]].
    now rewrite <- (E eq_refl). }
  clear Hadds.
  assert (G : forall s,
             let r := CxxTorchOptions__init__ env s in
             _cflags (snd r)
             = _nonduplicate_append (_cflags s) ["DLL"; "O2"; "std:c++17"; "openmp"]
             /\ _libraries (snd r)
                = _nonduplicate_append (_libraries s) ["torch"; "torch_cpu"; "c10"]
             /\ _passthough_args (snd r)
                = _nonduplicate_append (_passthough_args s)
                    [chosen_isa_build_arch_flags env]).
  { intros s r. subst r.
    destruct (Hc s) as [x1 [s1 [E1 G1]]].
    destruct (Hl s) as [x2 [s2 [E2 G2]]].
    destruct (Hp s) as [x3 [s3 [E3 G3]]].
    rewrite E1 in E2, E3. injection E2 as _ <-. injection E3 as _ <-.
    rewrite E1. cbn [snd]. repeat split; assumption. }
  split; [exact G |].
  exact (G initial_store).
Qed.

Lemma windows_torch_options_witness :
  let env := with_toggles windows_env true true true in
  _IS_WINDOWS env = true
  /\ config_debug_compile env = true
  /\ _cflags (snd (CxxTorchOptions__init__ env initial_store))
     = ["DLL"; "O2"; "std:c++17"; "openmp"]
  /\ _passthough_args (snd (CxxTorchOptions__init__ env initial_store))
     = ["-mavx2 -mfma"].
Proof.
  intro env.
  destruct (windows_torch_options env eq_refl) as [_ [Hc [_ Hp]]].
  split; [reflexivity |].
  split; [reflexivity |].
  split; [exact Hc | exact Hp].
Defined.

(** ** CUDA code generation and library directories *)

(** X20.  Outside Windows [get_nvcc_compiler_options] never raises, also when
    no CUDA architecture is known: the architecture is then written as the
    text [None].  The architecture [90] is replaced by [90a].  With
    architecture text [a], the second pass-through argument is
    [-gencode=arch=compute_a,code=[sm_a,compute_a]], with [,lto_a] before the
    closing bracket when link-time optimization is on.  On Windows the
    function raises [NotImplementedError]. *)
Theorem gencode_flag_shape (env : Env) :
  let a := match get_cuda_arch env with
           | Some "90" => "90a"
           | Some arch => arch
           | None => "None"
           end in
  if _IS_WINDOWS env then
    exists msg, get_nvcc_compiler_options env = Raise (NotImplementedError msg)
  else
    exists cf defs rest,
      get_nvcc_compiler_options env
      = Ok (cf, defs,
            "-w"
            :: ("-gencode=arch=compute_" ++ a ++ ",code=[sm_" ++ a ++ ",compute_" ++ a
                ++ (if config_enable_cuda_lto env then ",lto_" ++ a else "") ++ "]")
            :: config_compile_opt_level env
            :: "--expt-relaxed-constexpr" :: rest).
Proof.
  intro a. unfold get_nvcc_compiler_options.
  destruct (_IS_WINDOWS env); cbn [negb]; [now eexists |].
  assert (Ea : match get_cuda_arch env with
               | Some a0 => if String.eqb a0 "90" then "90a" else a0
               | None => Py.str_of_optional None
               end = a).
  { subst a. destruct (get_cuda_arch env) as [arch |]; [| reflexivity].
    destruct (String.eqb arch "90") eqn:E.
    - apply String.eqb_eq in E. now subst arch.
    - apply String.eqb_neq in E.
      repeat (match goal with
              | |- context [match ?x with _ => _ end] => destruct x
              end; try reflexivity; try congruence). }
  rewrite Ea. clear Ea.
  destruct (config_enable_cuda_lto env), (config_enable_debug_info env),
    (config_enable_ptxas_info env), (config_use_fast_math env);
    cbv beta iota zeta delta [app Py.join];
    rewrite ?append_assoc; cbn [append]; rewrite ?append_nil_r;
    do 3 eexists; reflexivity.
Qed.


